(** * tedious: column metadata, collations, SmallDateTime and bulk-load phases

    A shallow embedding of [src/src/metadata-parser.ts]: the collation decoder
    [_parseCollation], the COLMETADATA column decoder [metadataParse] and the
    [SmallDateTime] data type, together with the properties the specification
    states about them. *)

From Stdlib Require Import ZArith Lia Bool.
From Stdlib Require Import Strings.String Strings.Ascii Strings.Byte.
From stdpp Require Import base option list gmap strings.

Local Open Scope Z_scope.

(** ** JavaScript numbers as used by the sources

    Every number the modelled code computes is an integer of magnitude below
    2^53, where JavaScript's doubles are exact; numbers are therefore [Z].
    The bitwise operators work on 32-bit two's complement integers: each
    operand goes through [ToInt32] and so does the result. *)

Module Js.

Definition ToInt32 (z : Z) : Z := (z + 2 ^ 31) mod 2 ^ 32 - 2 ^ 31.

(** [ToInt32] of a possibly [undefined] operand: [undefined] converts to NaN
    and NaN to 0. *)
Definition ToInt32' (v : option Z) : Z :=
  match v with
  | Some z => ToInt32 z
  | None => 0
  end.

Definition band (a b : Z) : Z := ToInt32 (Z.land (ToInt32 a) (ToInt32 b)).
Definition bor (a b : Z) : Z := ToInt32 (Z.lor (ToInt32 a) (ToInt32 b)).
(** The shift count is taken modulo 32. *)
Definition shl (a n : Z) : Z := ToInt32 (Z.shiftl (ToInt32 a) (n mod 32)).
Definition sar (a n : Z) : Z := Z.shiftr (ToInt32 a) (n mod 32).

(** Numbers that may be NaN ([None]); an operation on NaN gives NaN. *)
Definition sub (a b : option Z) : option Z := x ← a; y ← b; Some (x - y).
Definition add (a b : option Z) : option Z := x ← a; y ← b; Some (x + y).
Definition mul (a b : option Z) : option Z := x ← a; y ← b; Some (x * y).
Definition neg (a : option Z) : option Z := x ← a; Some (- x).
(** [Math.floor(a / b)] for a nonzero divisor: on integers of this size the
    rounded quotient has the floor of the exact one. *)
Definition floor_div (a b : option Z) : option Z := x ← a; y ← b; Some (x / y).

(** Errors are objects with a constructor and a message. *)
Inductive Error : Type :=
  | Error_ (message : string)
  | TypeError (message : string)
  | RangeError (message : string).

Definition message (e : Error) : string :=
  match e with
  | Error_ m | TypeError m | RangeError m => m
  end.

End Js.

Declare Scope js_scope.
Delimit Scope js_scope with js.
Infix ".&" := Js.band (at level 40, left associativity) : js_scope.
Infix ".|" := Js.bor (at level 50, left associativity) : js_scope.
Infix ".<<" := Js.shl (at level 33, left associativity) : js_scope.
Infix ".>>" := Js.sar (at level 33, left associativity) : js_scope.
Infix ".-" := Js.sub (at level 50, left associativity) : js_scope.
Infix ".+" := Js.add (at level 50, left associativity) : js_scope.
Infix ".*" := Js.mul (at level 40, left associativity) : js_scope.

(** ** Buffers *)

Definition Buffer : Type := list byte.

Definition byte_Z (b : byte) : Z := Z.of_N (Byte.to_N b).

(** [buf[i]]: the byte as a number, or [undefined] past the end. *)
Definition at_ (buf : Buffer) (i : nat) : option Z := byte_Z <$> buf !! i.

(** ** Collations ([src/src/metadata-parser.ts]) *)

Record CollationFlags : Type := {
  fIgnoreCase : bool;
  fIgnoreAccent : bool;
  fIgnoreWidth : bool;
  fIgnoreKana : bool;
  fBinary : bool;
  fBinary2 : bool;
  fUTF8 : bool;
  fReservedBit : bool
}.

Record Collation : Type := {
  lcid : Z;
  flags : Z;
  _flags : CollationFlags;
  version : Z;
  (** [collationData[4]], [undefined] ([None]) when the buffer is shorter. *)
  sortId : option Z;
  codepage : string
}.

Section ParseCollation.

(** The two tables of [./collation], JavaScript objects keyed by number. *)
Variable codepageBySortId : gmap Z string.
Variable codepageByLcid : gmap Z string.

Definition fallbackCodepage : string := "CP1252".

Definition _parseCollation (collationData : Buffer) : Collation :=
  let b := fun i => Js.ToInt32' (at_ collationData i) in
  let lcid := ((b 2%nat .& 0x0F) .<< 16)%js in
  let lcid := (lcid .| (b 1%nat .<< 8))%js in
  let lcid := (lcid .| b 0%nat)%js in
  let flags := ((b 2%nat .& 0xF0) .| (b 3%nat .& 0x0F))%js in
  let _flags := {|
    fIgnoreCase := (flags .& 0x10)%js =? 0x10;
    fIgnoreAccent := (flags .& 0x20)%js =? 0x20;
    fIgnoreKana := (flags .& 0x40)%js =? 0x40;
    fIgnoreWidth := (flags .& 0x80)%js =? 0x80;
    fBinary := (flags .& 0x01)%js =? 0x01;
    fBinary2 := (flags .& 0x02)%js =? 0x02;
    fUTF8 := (flags .& 0x04)%js =? 0x04;
    fReservedBit := (flags .& 0x08)%js =? 0x08
  |} in
  let version := (((b 3%nat .& 0xF0) .>> 4) .& 0x0F)%js in
  let sortId := at_ collationData 4 in
  let codepage : option string :=
    if fUTF8 _flags then Some "utf8"
    else if bool_decide (sortId = Some 0x00) then codepageByLcid !! lcid
    else sortId ≫= fun s => codepageBySortId !! s in
  {| lcid := lcid; flags := flags; _flags := _flags; version := version;
     sortId := sortId; codepage := default fallbackCodepage codepage |}.

End ParseCollation.

(** ** Outcomes of running JavaScript code

    A call either completes with a value, throws, or (for the stream parser)
    stops in the middle because the bytes it needs have not arrived yet. *)

Inductive Outcome (R : Type) : Type :=
  | Done (r : R)
  | Suspended
  | Threw (e : Js.Error).

Arguments Done {R} r.
Arguments Suspended {R}.
Arguments Threw {R} e.

(** ** The stream parser ([./token/stream-parser])

    The parser is an object holding the unread bytes; its readers take a
    continuation. A piece of code that drives the parser is modelled as a
    function of the unread bytes. *)

(** A JavaScript string as its sequence of UTF-16 code units. *)
Definition UCS2 : Type := list Z.

Module Parser.

Definition Run (R : Type) : Type := Buffer -> Outcome R.

(** Little-endian value of a run of bytes. *)
Fixpoint fromLE (bs : Buffer) : Z :=
  match bs with
  | [] => 0
  | b :: bs' => byte_Z b + 2 ^ 8 * fromLE bs'
  end.

(** Pairs of bytes as UCS-2 little-endian code units. *)
Fixpoint ucs2 (bs : Buffer) : UCS2 :=
  match bs with
  | lo :: hi :: bs' => fromLE [lo; hi] :: ucs2 bs'
  | _ => []
  end.

(** Modelled from the spec: the primitive readers of the stream parser, whose
    source file is not part of the excerpt. Section 4.3: each reader takes a
    byte count and a continuation producing the decoded value; when fewer
    bytes are buffered than required, the reader suspends; all readers are
    little-endian. [readBuffer] is [buffer(n)]. *)
Definition readBuffer {R} (n : nat) (callback : Buffer -> Run R) : Run R :=
  fun input =>
    if decide (n <= length input)%nat
    then callback (take n input) (drop n input)
    else Suspended.

(** Modelled from the spec: the reader [u8] of section 4.3. *)
Definition readUInt8 {R} (callback : Z -> Run R) : Run R :=
  readBuffer 1 (fun bs => callback (fromLE bs)).

(** Modelled from the spec: the reader [u16], little-endian. *)
Definition readUInt16LE {R} (callback : Z -> Run R) : Run R :=
  readBuffer 2 (fun bs => callback (fromLE bs)).

(** Modelled from the spec: the reader [u32], little-endian. *)
Definition readUInt32LE {R} (callback : Z -> Run R) : Run R :=
  readBuffer 4 (fun bs => callback (fromLE bs)).

(** Modelled from the spec: [BVARCHAR], a [u8] count C, then 2C bytes decoded
    as UCS-2 LE. *)
Definition readBVarChar {R} (callback : UCS2 -> Run R) : Run R :=
  readUInt8 (fun count =>
    readBuffer (2 * Z.to_nat count) (fun bs => callback (ucs2 bs))).

(** Modelled from the spec: [USVARCHAR], as [BVARCHAR] with a [u16] count. *)
Definition readUsVarChar {R} (callback : UCS2 -> Run R) : Run R :=
  readUInt16LE (fun count =>
    readBuffer (2 * Z.to_nat count) (fun bs => callback (ucs2 bs))).

End Parser.

(** ** Data types and column metadata *)

Module DataType.
(** The fields of a [DataType] that the decoder looks at. *)
Record t : Type := { id : Z; type : string; name : string }.
End DataType.

Record XmlSchema : Type := {
  dbname : UCS2;
  owningSchema : UCS2;
  xmlSchemaCollection : UCS2
}.

Module UdtInfo.
Record t : Type := {
  maxByteSize : Z;
  dbname : UCS2;
  owningSchema : UCS2;
  typeName : UCS2;
  assemblyName : UCS2
}.
End UdtInfo.

(** [BaseMetadata]; [undefined] fields are [None]. *)
Module Metadata.
Record t : Type := {
  userType : Z;
  flags : Z;
  type : DataType.t;
  collation : option Collation;
  precision : option Z;
  scale : option Z;
  dataLength : option Z;
  schema : option XmlSchema;
  udtInfo : option UdtInfo.t
}.
End Metadata.

(** The connection options the modelled code reads. [tdsVersion] is
    [undefined] when the options object lacks it, as in the unit tests, which
    pass an empty object. *)
Record InternalConnectionOptions : Type := {
  tdsVersion : option string;
  useUTC : bool
}.

(** ** String helpers *)

(** [a < b] on two strings: lexicographic by code unit. *)
Definition str_lt (a b : string) : bool :=
  match String.compare a b with
  | Lt => true
  | _ => false
  end.

(** [v < s] where [v] may be [undefined]: [undefined] converts to NaN and every
    comparison with NaN is false. *)
Definition lt_string (v : option string) (s : string) : bool :=
  match v with
  | Some a => str_lt a s
  | None => false
  end.

Definition hexDigit (d : Z) : ascii :=
  default "0"%char (String.get (Z.to_nat d) "0123456789ABCDEF").

Fixpoint hexDigits (fuel : nat) (n : Z) (acc : string) : string :=
  match fuel with
  | O => acc
  | S fuel' =>
      let acc' := String (hexDigit (n mod 16)) acc in
      if n / 16 =? 0 then acc' else hexDigits fuel' (n / 16) acc'
  end.

(** [sprintf('%02X', n)] for a number [n >= 0]: upper-case hexadecimal, padded
    with zeros to two characters. *)
Definition sprintf_02X (n : Z) : string :=
  let s := hexDigits (S (Z.to_nat (Z.log2 n))) n "" in
  if decide (String.length s < 2)%nat then String "0" s else s.

Definition name_in (names : list string) (n : string) : bool :=
  bool_decide (n ∈ names).

(** ** The column decoder ([src/src/metadata-parser.ts]) *)

Section MetadataParse.

Variable codepageBySortId : gmap Z string.
Variable codepageByLcid : gmap Z string.
(** [TYPE] of [./data-type]: the registry, keyed by wire id. *)
Variable TYPE : gmap Z DataType.t.

Context {R : Type}.

Import Parser.

Definition readCollation (callback : option Collation -> Run R) : Run R :=
  readBuffer 5 (fun collationData =>
    let collation := _parseCollation codepageBySortId codepageByLcid collationData in
    callback (Some collation)).

Definition readSchema (callback : option XmlSchema -> Run R) : Run R :=
  readUInt8 (fun schemaPresent =>
    if schemaPresent =? 0x01 then
      readBVarChar (fun dbname =>
        readBVarChar (fun owningSchema =>
          readUsVarChar (fun xmlSchemaCollection =>
            callback (Some {|
              dbname := dbname;
              owningSchema := owningSchema;
              xmlSchemaCollection := xmlSchemaCollection
            |}))))
    else
      callback None).

Definition readUDTInfo (callback : option UdtInfo.t -> Run R) : Run R :=
  readUInt16LE (fun maxByteSize =>
    readBVarChar (fun dbname =>
      readBVarChar (fun owningSchema =>
        readBVarChar (fun typeName =>
          readUsVarChar (fun assemblyName =>
            callback (Some {|
              UdtInfo.maxByteSize := maxByteSize;
              UdtInfo.dbname := dbname;
              UdtInfo.owningSchema := owningSchema;
              UdtInfo.typeName := typeName;
              UdtInfo.assemblyName := assemblyName
            |})))))).

(** The metadata record every branch of the switch builds. *)
Definition mk (userType flags : Z) (type : DataType.t)
    (collation : option Collation) (precision scale dataLength : option Z)
    (schema : option XmlSchema) (udtInfo : option UdtInfo.t) : Metadata.t :=
  {| Metadata.userType := userType; Metadata.flags := flags;
     Metadata.type := type; Metadata.collation := collation;
     Metadata.precision := precision; Metadata.scale := scale;
     Metadata.dataLength := dataLength; Metadata.schema := schema;
     Metadata.udtInfo := udtInfo |}.

Definition metadataParse (options : InternalConnectionOptions)
    (callback : Metadata.t -> Run R) : Run R :=
  (if lt_string (tdsVersion options) "7_2" then readUInt16LE else readUInt32LE)
  (fun userType =>
    readUInt16LE (fun flags =>
      readUInt8 (fun typeNumber =>
        match TYPE !! typeNumber with
        | None =>
            fun _ => Threw (Js.Error_ ("Unrecognised data type 0x" +:+ sprintf_02X typeNumber))
        | Some type =>
            let case := fun names => name_in names (DataType.name type) in
            if case ["Null"; "TinyInt"; "SmallInt"; "Int"; "BigInt"; "Real";
                     "Float"; "SmallMoney"; "Money"; "Bit"; "SmallDateTime";
                     "DateTime"; "Date"] then
              callback (mk userType flags type None None None None None None)
            else if case ["IntN"; "FloatN"; "MoneyN"; "BitN";
                          "UniqueIdentifier"; "DateTimeN"] then
              readUInt8 (fun dataLength =>
                callback (mk userType flags type None None None (Some dataLength) None None))
            else if case ["Variant"] then
              readUInt32LE (fun dataLength =>
                callback (mk userType flags type None None None (Some dataLength) None None))
            else if case ["VarChar"; "Char"; "NVarChar"; "NChar"] then
              readUInt16LE (fun dataLength =>
                readCollation (fun collation =>
                  callback (mk userType flags type collation None None (Some dataLength) None None)))
            else if case ["Text"; "NText"] then
              readUInt32LE (fun dataLength =>
                readCollation (fun collation =>
                  callback (mk userType flags type collation None None (Some dataLength) None None)))
            else if case ["VarBinary"; "Binary"] then
              readUInt16LE (fun dataLength =>
                callback (mk userType flags type None None None (Some dataLength) None None))
            else if case ["Image"] then
              readUInt32LE (fun dataLength =>
                callback (mk userType flags type None None None (Some dataLength) None None))
            else if case ["Xml"] then
              readSchema (fun schema =>
                callback (mk userType flags type None None None None schema None))
            else if case ["Time"; "DateTime2"; "DateTimeOffset"] then
              readUInt8 (fun scale =>
                callback (mk userType flags type None None (Some scale) None None None))
            else if case ["NumericN"; "DecimalN"] then
              readUInt8 (fun dataLength =>
                readUInt8 (fun precision =>
                  readUInt8 (fun scale =>
                    callback (mk userType flags type None (Some precision) (Some scale)
                                (Some dataLength) None None))))
            else if case ["UDT"] then
              readUDTInfo (fun udtInfo =>
                callback (mk userType flags type None None None None None udtInfo))
            else
              fun _ => Threw (Js.Error_ ("Unrecognised type " +:+ DataType.name type))
        end))).

End MetadataParse.

(** ** Dates

    A [Date] object is its time value: the milliseconds since 1970-01-01 UTC,
    or NaN ([None]) for an "Invalid Date". Numbers that may be NaN are
    [option Z], and arithmetic on them is in the option monad. *)

Module Date.

Definition t : Type := option Z.

Definition msPerDay : Z := 1000 * 60 * 60 * 24.

(** Days from 1970-01-01 to the given day of the proleptic Gregorian calendar
    ([MakeDay]); [month] counts from 0 and may lie outside 0..11. *)
Definition MakeDay (year month day : Z) : Z :=
  let ym := year + month / 12 in
  let mn := month mod 12 + 1 in
  let y := if mn <=? 2 then ym - 1 else ym in
  let era := y / 400 in
  let yoe := y - era * 400 in
  let doy := (153 * (if mn <=? 2 then mn + 9 else mn - 3) + 2) / 5 + day - 1 in
  let doe := yoe * 365 + yoe / 4 - yoe / 100 + doy in
  era * 146097 + doe - 719468.

(** [Date.UTC(year, month, day)] for a four-digit year. *)
Definition UTC (year month day : Z) : Z := MakeDay year month day * msPerDay.

Definition TimeClip (time : option Z) : option Z :=
  time ≫= fun v => if Z.abs v <=? 8640000000000000 then Some v else None.

(** [new Date(number)] *)
Definition new (time : option Z) : t := TimeClip time.

Definition getTime (d : t) : option Z := d.
Definition getUTCHours (d : t) : option Z := (fun v => v / 3600000 mod 24) <$> d.
Definition getUTCMinutes (d : t) : option Z := (fun v => v / 60000 mod 60) <$> d.

(** [isNaN(date)]: the date converts to its time value. *)
Definition isNaN (d : t) : bool := bool_decide (d = None).

End Date.

(** ** JavaScript values handed to a data type

    What [SmallDateTime] can tell apart: [null], [undefined], a [Date], and
    anything else. [validate] only ever converts a value of the last kind to
    a string (by [Date.parse]); it is represented by that conversion: the
    string, or the error the conversion throws (a Symbol, an object without a
    usable [toString]).

    The encoders do not test for a [Date]: they call [getTime], [getUTCHours]
    and the like on whatever they are given. For them [Other] stands for a
    value that has none of these methods (a string, a number, a boolean, a
    plain object). An object that is not a [Date] and yet carries methods of
    these names is encoded with whatever they return; such an object has no
    representation here, and nothing below is stated of the encoders on
    [Other] values. *)

Inductive Value : Type :=
  | Null
  | Undefined
  | DateV (d : Date.t)
  | Other (str : string + Js.Error).

(** [value == null] *)
Definition nullish (value : Value) : bool :=
  match value with
  | Null | Undefined => true
  | _ => false
  end.

Record ParameterData : Type := { value : Value }.

#[global] Instance Outcome_ret : MRet Outcome := @Done.
#[global] Instance Outcome_bind : MBind Outcome := fun A B f o =>
  match o with
  | Done a => f a
  | Suspended => Suspended
  | Threw e => Threw e
  end.

(** ** Node's [Buffer] writers *)

Definition Z_byte (z : Z) : byte :=
  default "000"%byte (Byte.of_N (Z.to_N (z mod 256))).

(** [Buffer.alloc(n)] *)
Definition alloc (n : nat) : Buffer := replicate n "000"%byte.

(** [buf.writeUInt16LE(value, offset)]. Node throws a [RangeError] (code
    [ERR_OUT_OF_RANGE], by which the message is abbreviated here) when the
    value lies outside 0..65535 or the two bytes do not fit at [offset]. NaN
    fails neither comparison of the range check and is stored as 0. *)
Definition writeUInt16LE (buf : Buffer) (value : option Z) (offset : nat) : Outcome Buffer :=
  let v := default 0 value in
  if decide (0 <= v <= 65535 ∧ (offset + 2 <= length buf)%nat)
  then Done (<[S offset := Z_byte (v / 2 ^ 8)]> (<[offset := Z_byte v]> buf))
  else Threw (Js.RangeError "ERR_OUT_OF_RANGE").

(** ** SmallDateTime (the data type in the second half of
       [src/src/metadata-parser.ts]) *)

Module SmallDateTime.

Section Host.

(** The host's time zone and date parser, which ECMAScript leaves to the
    implementation. [tzOffset] gives the offset in minutes at an instant
    (taken to be whole minutes), [localToUTC] the instant a local wall-clock
    time denotes, [Date_parse] the time value of a string, NaN when it is
    not recognised. *)
Variable tzOffset : Z -> Z.
Variable localToUTC : Z -> Z.
Variable Date_parse : string -> option Z.

(** A method of [Date] called on [value]. On [null] and [undefined] the
    property cannot be read; on an [Other] value, which has no such method,
    it is not a function; either way the call throws. [receiver] is the
    expression the method is called on, which the message quotes. *)
Definition call {A : Type} (receiver name : string) (method : Date.t -> A)
    (value : Value) : Outcome A :=
  match value with
  | DateV d => Done (method d)
  | Other _ => Threw (Js.TypeError (receiver +:+ "." +:+ name +:+ " is not a function"))
  | Null =>
      Threw (Js.TypeError ("Cannot read properties of null (reading '" +:+ name +:+ "')"))
  | Undefined =>
      Threw (Js.TypeError ("Cannot read properties of undefined (reading '" +:+ name +:+ "')"))
  end.

Definition getTime rcv := call rcv "getTime" Date.getTime.
Definition getUTCHours rcv := call rcv "getUTCHours" Date.getUTCHours.
Definition getUTCMinutes rcv := call rcv "getUTCMinutes" Date.getUTCMinutes.
Definition getTimezoneOffset rcv :=
  call rcv "getTimezoneOffset" (fun d => tzOffset <$> d).
Definition getHours rcv :=
  call rcv "getHours" (fun d => (fun v => (v - tzOffset v * 60000) / 3600000 mod 24) <$> d).
Definition getMinutes rcv :=
  call rcv "getMinutes" (fun d => (fun v => (v - tzOffset v * 60000) / 60000 mod 60) <$> d).

Definition EPOCH_DATE : Value := DateV (Date.new (Some (localToUTC (Date.UTC 1900 0 1)))).
Definition UTC_EPOCH_DATE : Value := DateV (Date.new (Some (Date.UTC 1900 0 1))).

Definition DATA_LENGTH : Buffer := ["004"%byte].
Definition NULL_LENGTH : Buffer := ["000"%byte].

Definition SmallDateTime : DataType.t :=
  {| DataType.id := 0x3A; DataType.type := "DATETIM4"; DataType.name := "SmallDateTime" |}.

Definition declaration : string := "smalldatetime".

(** [DateTimeN.id] comes from [./datetimen]. *)
Definition generateTypeInfo (DateTimeN_id : byte) : Buffer :=
  [DateTimeN_id; "004"%byte].

Definition generateParameterLength (parameter : ParameterData)
    (options : InternalConnectionOptions) : Buffer :=
  if nullish (value parameter) then NULL_LENGTH else DATA_LENGTH.

(** A generator: the outcome of running it to its end, with the chunks it
    yielded. *)
Definition generateParameterData (parameter : ParameterData)
    (options : InternalConnectionOptions) : Outcome (list Buffer) :=
  if nullish (value parameter) then Done []
  else
    let buffer := alloc 4 in
    '(days, minutes) ←
      (if useUTC options then
         t ← getTime "parameter.value" (value parameter);
         e ← getTime "UTC_EPOCH_DATE" UTC_EPOCH_DATE;
         let days := Js.floor_div (t .- e)%js (Some (1000 * 60 * 60 * 24)) in
         h ← getUTCHours "parameter.value" (value parameter);
         m ← getUTCMinutes "parameter.value" (value parameter);
         Done (days, (h .* Some 60 .+ m)%js)
       else
         o ← getTimezoneOffset "parameter.value" (value parameter);
         oe ← getTimezoneOffset "EPOCH_DATE" EPOCH_DATE;
         let dstDiff := (Js.neg (o .- oe) .* Some 60 .* Some 1000)%js in
         t ← getTime "parameter.value" (value parameter);
         e ← getTime "EPOCH_DATE" EPOCH_DATE;
         let days := Js.floor_div (t .- e .+ dstDiff)%js (Some (1000 * 60 * 60 * 24)) in
         h ← getHours "parameter.value" (value parameter);
         m ← getMinutes "parameter.value" (value parameter);
         Done (days, (h .* Some 60 .+ m)%js));
    buffer ← writeUInt16LE buffer days 0;
    buffer ← writeUInt16LE buffer minutes 2;
    Done [buffer].

Definition toBuffer (parameter : ParameterData)
    (options : InternalConnectionOptions) : Outcome Buffer :=
  let value := value parameter in
  if negb (nullish value) then
    '(days, minutes) ←
      (if useUTC options then
         t ← getTime "value" value;
         e ← getTime "UTC_EPOCH_DATE" UTC_EPOCH_DATE;
         let days := Js.floor_div (t .- e)%js (Some (1000 * 60 * 60 * 24)) in
         h ← getUTCHours "value" value;
         m ← getUTCMinutes "value" value;
         Done (days, (h .* Some 60 .+ m)%js)
       else
         o ← getTimezoneOffset "value" value;
         oe ← getTimezoneOffset "EPOCH_DATE" EPOCH_DATE;
         let dstDiff := (Js.neg (o .- oe) .* Some 60 .* Some 1000)%js in
         t ← getTime "value" value;
         e ← getTime "EPOCH_DATE" EPOCH_DATE;
         let days := Js.floor_div (t .- e .+ dstDiff)%js (Some (1000 * 60 * 60 * 24)) in
         h ← getHours "value" value;
         m ← getMinutes "value" value;
         Done (days, (h .* Some 60 .+ m)%js));
    let result := alloc 4 in
    result ← writeUInt16LE result days 0;
    result ← writeUInt16LE result minutes 2;
    Done result
  else Done [].

(** What [validate] returns: [null], a [Date] or an error object. *)
Inductive Validated : Type :=
  | VNull
  | VDate (d : Date.t)
  | VError (e : Js.Error).

(** [Date.parse(value)] converts its argument to a string first, which may
    throw; [new Date(number)] clips the number to the range of time values. *)
Definition parseDate (str : string + Js.Error) : Outcome Date.t :=
  match str with
  | inl s => Done (Date.new (Date_parse s))
  | inr e => Threw e
  end.

(** The last two statements of [validate], on the coerced value. *)
Definition checked (value : Date.t) : Outcome Validated :=
  if Date.isNaN value then Done (VError (Js.TypeError "Invalid date."))
  else Done (VDate value).

Definition validate (value : Value) : Outcome Validated :=
  match value with
  | Null | Undefined => Done VNull
  | DateV d => checked d
  | Other str => value ← parseDate str; checked value
  end.

End Host.

End SmallDateTime.

(** ** Bulk load handles

    The bulk-load engine ([bulk-load.ts] and [Connection.execBulkLoad]) is not
    part of the excerpt, which has its integration tests only. The handle and
    its phases are modelled from sections 3 and 4.6 of the specification. *)

Module BulkLoad.

(** Modelled from the spec: the phases of a bulk-load handle (section 3). *)
Inductive Phase : Type := configuring | executing | cancelled | completed | errored.

#[global] Instance Phase_eq_dec : EqDecision Phase.
Proof. solve_decision. Defined.

(** Modelled from the spec: the options of [addColumn] (section 4.6). *)
Record ColumnOptions : Type := {
  nullable : bool;
  length : option Z;
  precision : option Z;
  scale : option Z;
  objName : option string
}.

(** Modelled from the spec: a column definition of a handle. *)
Record ColumnDef : Type := {
  name : string;
  type : DataType.t;
  options : ColumnOptions
}.

(** Modelled from the spec: the handle (section 3), with the fields that
    matter for adding columns. *)
Record t : Type := {
  tableName : string;
  columns : list ColumnDef;
  phase : Phase
}.

(** Modelled from the spec: [newBulkLoad] returns a handle in phase
    [configuring]. *)
Definition newBulkLoad (tableName : string) : t :=
  {| tableName := tableName; columns := []; phase := configuring |}.

(** Modelled from the spec: a phase transition changes nothing else. *)
Definition setPhase (p : Phase) (h : t) : t :=
  {| tableName := tableName h; columns := columns h; phase := p |}.

(** Modelled from the spec: [addColumn] appends a column; it is valid only in
    phase [configuring] and fails otherwise with the message of section 4.6. *)
Definition addColumn (h : t) (name : string) (type : DataType.t)
    (options : ColumnOptions) : Outcome t :=
  if decide (phase h = configuring) then
    Done {| tableName := tableName h;
            columns := columns h ++ [{| name := name; type := type; options := options |}];
            phase := phase h |}
  else
    Threw (Js.Error_ "Columns cannot be added to bulk insert after execution has started.").

(** Modelled from the spec: a row source (section 3), the rows it will yield,
    pulled synchronously (a list, an iterator) or asynchronously (an async
    iterator, a stream). *)
Inductive RowSource : Type :=
  | Synchronous (rows : list (list Value))
  | Asynchronous (rows : list (list Value)).

(** Modelled from the spec: step 1 of [execBulkLoad] moves the handle to
    phase [executing]; the transition is one-way, and a handle cancelled
    before the execution finishes at once, as cancelled. *)
Definition execBulkLoad (h : t) (rows : RowSource) : t :=
  match phase h with
  | configuring => setPhase executing h
  | _ => h
  end.

(** Modelled from the spec: what can happen to a handle besides the start of
    its execution (section 4.6): a call of [addColumn] or [cancel], the timer,
    a row pulled from the source, the server's final DONE, a failure. *)
Inductive Event : Type :=
  | AddColumn (name : string) (type : DataType.t) (options : ColumnOptions)
  | Cancel
  | TimerFired
  | RowPulled
  | FinalDone
  | Failed.

(** Modelled from the spec: the effect of an event on the handle. [cancel]
    marks a handle cancelled before or during the execution and is a no-op
    after completion; the timer behaves as [cancel] during the execution and
    is a no-op otherwise; DONE and failures end an execution. *)
Definition step (h : t) (ev : Event) : t :=
  match ev with
  | AddColumn name type options =>
      match addColumn h name type options with
      | Done h' => h'
      | _ => h
      end
  | Cancel =>
      match phase h with
      | configuring | executing => setPhase cancelled h
      | _ => h
      end
  | TimerFired =>
      match phase h with
      | executing => setPhase cancelled h
      | _ => h
      end
  | RowPulled => h
  | FinalDone =>
      match phase h with
      | executing => setPhase completed h
      | _ => h
      end
  | Failed =>
      match phase h with
      | executing => setPhase errored h
      | _ => h
      end
  end.

(** Modelled from the spec: a sequence of events, in order. *)
Definition run (h : t) (evs : list Event) : t := foldl step h evs.

End BulkLoad.

(** ** Callers and sample data *)

(** A callback that hands the decoded column back to the caller, with the
    bytes left unread. *)
Definition deliver : Metadata.t -> Parser.Run (Metadata.t * Buffer) :=
  fun metadata rest => Done (metadata, rest).

(** The names the switch of [metadataParse] has a case for, in its order. *)
Definition switchNames : list string :=
  ["Null"; "TinyInt"; "SmallInt"; "Int"; "BigInt"; "Real"; "Float";
   "SmallMoney"; "Money"; "Bit"; "SmallDateTime"; "DateTime"; "Date";
   "IntN"; "FloatN"; "MoneyN"; "BitN"; "UniqueIdentifier"; "DateTimeN";
   "Variant"; "VarChar"; "Char"; "NVarChar"; "NChar"; "Text"; "NText";
   "VarBinary"; "Binary"; "Image"; "Xml"; "Time"; "DateTime2";
   "DateTimeOffset"; "NumericN"; "DecimalN"; "UDT"].

(** The number of bytes [userType] takes on the wire. *)
Definition userTypeSize (options : InternalConnectionOptions) : nat :=
  if lt_string (tdsVersion options) "7_2" then 2%nat else 4%nat.

(** A run that, whatever the input, delivers a column or else waits because
    fewer than [N] bytes are there; in particular it never throws. *)
Definition delivers_within (N : Z) (run : Parser.Run (Metadata.t * Buffer)) : Prop :=
  forall input : Buffer,
    (exists m rest, run input = Done (m, rest))
    \/ (run input = Suspended /\ Z.of_nat (length input) < N).

(** ** Predicates on runs of the parser *)

(** What a callback sees of a run that hands its column to [deliver]. *)
Definition andThen {R : Type} (o : Outcome (Metadata.t * Buffer))
    (callback : Metadata.t -> Parser.Run R) : Outcome R :=
  match o with
  | Done (m, rest) => callback m rest
  | Suspended => Suspended
  | Threw e => Threw e
  end.

(** [run] does with [callback] what [run'] does with [deliver]. *)
Definition follows {R : Type} (callback : Metadata.t -> Parser.Run R)
    (run : Parser.Run R) (run' : Parser.Run (Metadata.t * Buffer)) : Prop :=
  forall input, run input = andThen (run' input) callback.

(** A run that, when it delivers, has read a prefix of between [lo] and [hi]
    bytes and nothing of what follows: with anything else after that prefix
    it delivers the same column. *)
Definition framed (lo hi : Z) (run : Parser.Run (Metadata.t * Buffer)) : Prop :=
  forall input m rest,
    run input = Done (m, rest) ->
    exists consumed,
      input = consumed ++ rest
      /\ lo <= Z.of_nat (length consumed) <= hi
      /\ forall more, run (consumed ++ more) = Done (m, more).

(** A run whose errors are final: bytes arriving later do not undo them. *)
Definition error_final (run : Parser.Run (Metadata.t * Buffer)) : Prop :=
  forall input more e, run input = Threw e -> run (input ++ more) = Threw e.

(** ** The tail of a column

    After the type id come the bytes that depend on the type. The table of
    section 4.4 of the specification lays them out by type family; what
    follows is that table, to be compared with what [metadataParse] reads. *)

(** A field of a tail: [n] bytes (a [u8], [u16] or [u32], or the 5-byte
    collation), a [BVARCHAR] or a [USVARCHAR]. *)
Inductive TailField : Type :=
  | Bytes (n : nat)
  | BVARCHAR
  | USVARCHAR.

(** The number of bytes the fields take at the start of [buf], the counts
    of the strings being read from [buf] itself: a [BVARCHAR] is a [u8] count
    C and 2C bytes, a [USVARCHAR] a little-endian [u16] count C and 2C
    bytes. [None] when [buf] ends before the fields do. *)
Fixpoint tailSize (fields : list TailField) (buf : Buffer) : option nat :=
  match fields with
  | [] => Some 0%nat
  | Bytes n :: fields' =>
      if decide (n <= length buf)%nat
      then (fun k => n + k)%nat <$> tailSize fields' (drop n buf)
      else None
  | BVARCHAR :: fields' =>
      match buf with
      | c :: buf' =>
          let n := (2 * Z.to_nat (byte_Z c))%nat in
          if decide (n <= length buf')%nat
          then (fun k => 1 + n + k)%nat <$> tailSize fields' (drop n buf')
          else None
      | _ => None
      end
  | USVARCHAR :: fields' =>
      match buf with
      | c0 :: c1 :: buf' =>
          let n := (2 * Z.to_nat (byte_Z c0 + 2 ^ 8 * byte_Z c1))%nat in
          if decide (n <= length buf')%nat
          then (fun k => 2 + n + k)%nat <$> tailSize fields' (drop n buf')
          else None
      | _ => None
      end
  end.

(** The row of the table for a type name. The schema block of [Xml] is its
    [u8 present] alone unless that byte is 1. The column name that follows
    every tail is read by the caller of [metadataParse], not by it. *)
Definition tailFields (name : string) (tail : Buffer) : list TailField :=
  let case := fun names => name_in names name in
  if case ["Null"; "TinyInt"; "SmallInt"; "Int"; "BigInt"; "Real"; "Float";
           "SmallMoney"; "Money"; "Bit"; "SmallDateTime"; "DateTime"; "Date"]
  then []
  else if case ["IntN"; "FloatN"; "MoneyN"; "BitN"; "UniqueIdentifier";
                "DateTimeN"]
  then [Bytes 1]
  else if case ["Variant"] then [Bytes 4]
  else if case ["VarChar"; "Char"; "NVarChar"; "NChar"] then [Bytes 2; Bytes 5]
  else if case ["Text"; "NText"] then [Bytes 4; Bytes 5]
  else if case ["VarBinary"; "Binary"] then [Bytes 2]
  else if case ["Image"] then [Bytes 4]
  else if case ["Xml"] then
    match tail with
    | present :: _ =>
        if byte_Z present =? 1
        then [Bytes 1; BVARCHAR; BVARCHAR; USVARCHAR]
        else [Bytes 1]
    | [] => [Bytes 1]
    end
  else if case ["Time"; "DateTime2"; "DateTimeOffset"] then [Bytes 1]
  else if case ["NumericN"; "DecimalN"] then [Bytes 1; Bytes 1; Bytes 1]
  else if case ["UDT"] then [Bytes 2; BVARCHAR; BVARCHAR; BVARCHAR; USVARCHAR]
  else [].

(** A run that hands [callback] a column of type [type] as soon as the
    bytes of [fields] are there, leaving the parser just after them, and
    waits as long as they are not. *)
Definition sized {R : Type} (callback : Metadata.t -> Parser.Run R)
    (type : DataType.t) (fields : Buffer -> list TailField)
    (run : Parser.Run R) : Prop :=
  forall tail : Buffer,
    match tailSize (fields tail) tail with
    | Some n =>
        exists m, Metadata.type m = type /\ run tail = callback m (drop n tail)
    | None => run tail = Suspended
    end.

Module Samples.

Definition Int : DataType.t :=
  {| DataType.id := 0x38; DataType.type := "INT4"; DataType.name := "Int" |}.
Definition VarChar : DataType.t :=
  {| DataType.id := 0xA7; DataType.type := "BIGVARCHR"; DataType.name := "VarChar" |}.
Definition NumericN : DataType.t :=
  {| DataType.id := 0x6C; DataType.type := "NUMERICN"; DataType.name := "NumericN" |}.
(** The table-valued parameter type: sent to the server, never a column. *)
Definition TVP : DataType.t :=
  {| DataType.id := 0xF3; DataType.type := "TVPTYPE"; DataType.name := "TVP" |}.

(** A registry with these four types under their wire ids. *)
Definition TYPE : gmap Z DataType.t :=
  list_to_map [(0x38, Int); (0xA7, VarChar); (0x6C, NumericN); (0xF3, TVP)].

(** The table entries the unit tests rely on. *)
Definition codepageBySortId : gmap Z string := {[ 0x9A := "CP1257" ]}.
Definition codepageByLcid : gmap Z string := {[ 0x0409 := "CP1252" ]}.

(** The eight flags in the order of the record. *)
Definition flagsOf (ic ia iw ik b b2 u r : bool) : CollationFlags :=
  {| fIgnoreCase := ic; fIgnoreAccent := ia; fIgnoreWidth := iw;
     fIgnoreKana := ik; fBinary := b; fBinary2 := b2; fUTF8 := u;
     fReservedBit := r |}.

(** A host whose local time is UTC and whose date parser recognises
    nothing. *)
Definition tzOffset (t : Z) : Z := 0.
Definition localToUTC (t : Z) : Z := t.
Definition Date_parse (s : string) : option Z := None.

(** 2000-02-29 12:34:00 UTC. *)
Definition leapDay : Z := Date.UTC 2000 1 29 + (12 * 60 + 34) * 60000.

Definition tds7_1 : InternalConnectionOptions :=
  {| tdsVersion := Some "7_1"; useUTC := true |}.
Definition tds7_4 : InternalConnectionOptions :=
  {| tdsVersion := Some "7_4"; useUTC := true |}.

End Samples.

(** More sample types, for the families the first registry lacks. *)
Module MoreSamples.

Definition IntN : DataType.t :=
  {| DataType.id := 0x26; DataType.type := "INTN"; DataType.name := "IntN" |}.
Definition Text : DataType.t :=
  {| DataType.id := 0x23; DataType.type := "TEXT"; DataType.name := "Text" |}.
Definition Xml : DataType.t :=
  {| DataType.id := 0xF1; DataType.type := "XML"; DataType.name := "Xml" |}.
Definition UDT : DataType.t :=
  {| DataType.id := 0xF0; DataType.type := "UDTTYPE"; DataType.name := "UDT" |}.

Definition TYPE : gmap Z DataType.t :=
  list_to_map [(0x38, Samples.Int); (0x26, IntN); (0x23, Text); (0xF1, Xml);
               (0xF0, UDT); (0xF3, Samples.TVP)].

(** A [numeric(38, 2)] column under TDS 7.1, followed by one more byte, and
    what the decoder makes of it. *)
Definition numericInput : Buffer := [x02; x00; x03; x00; x6c; x11; x26; x02; x04].

Definition numericColumn : Metadata.t :=
  {| Metadata.userType := 2; Metadata.flags := 3; Metadata.type := Samples.NumericN;
     Metadata.collation := None;
     Metadata.precision := Some 38; Metadata.scale := Some 2;
     Metadata.dataLength := Some 17;
     Metadata.schema := None; Metadata.udtInfo := None |}.

(** A host one hour east of UTC all year. *)
Definition tzOffset (t : Z) : Z := -60.
Definition localToUTC (t : Z) : Z := t + -60 * 60000.

End MoreSamples.

(** * Properties *)

(** ** Bitwise operators on small non-negative numbers *)

Section BitFacts.

Lemma byte_Z_range (b : byte) : 0 <= byte_Z b < 2 ^ 8.
Proof. unfold byte_Z. pose proof (Byte.to_N_bounded b). lia. Qed.

Lemma ToInt32_small (z : Z) : - 2 ^ 31 <= z < 2 ^ 31 -> Js.ToInt32 z = z.
Proof. intros Hz. unfold Js.ToInt32. rewrite Z.mod_small; lia. Qed.

Lemma land_range (a b n : Z) :
  0 <= n -> 0 <= a -> 0 <= b < 2 ^ n -> 0 <= Z.land a b < 2 ^ n.
Proof.
  intros Hn Ha Hb.
  assert (H0 : 0 <= Z.land a b) by (apply Z.land_nonneg; lia).
  split; [exact H0|].
  apply (proj2 (Z.bounded_iff_bits_nonneg n _ Hn H0)).
  intros l Hl. rewrite Z.land_spec.
  rewrite (proj1 (Z.bounded_iff_bits_nonneg n b Hn (proj1 Hb)) (proj2 Hb) l Hl).
  apply andb_false_r.
Qed.

Lemma lor_range (a b n : Z) :
  0 <= n -> 0 <= a < 2 ^ n -> 0 <= b < 2 ^ n -> 0 <= Z.lor a b < 2 ^ n.
Proof.
  intros Hn Ha Hb.
  assert (H0 : 0 <= Z.lor a b) by (apply Z.lor_nonneg; lia).
  split; [exact H0|].
  apply (proj2 (Z.bounded_iff_bits_nonneg n _ Hn H0)).
  intros l Hl. rewrite Z.lor_spec.
  rewrite (proj1 (Z.bounded_iff_bits_nonneg n a Hn (proj1 Ha)) (proj2 Ha) l Hl).
  rewrite (proj1 (Z.bounded_iff_bits_nonneg n b Hn (proj1 Hb)) (proj2 Hb) l Hl).
  reflexivity.
Qed.

Lemma shiftl_range (a k n : Z) :
  0 <= k -> 0 <= n -> 0 <= a < 2 ^ n -> 0 <= Z.shiftl a k < 2 ^ (n + k).
Proof.
  intros Hk Hn Ha. rewrite Z.shiftl_mul_pow2 by exact Hk.
  rewrite Z.pow_add_r by lia.
  assert (0 < 2 ^ k) by (apply Z.pow_pos_nonneg; lia). nia.
Qed.

(** Within 31 bits the JavaScript operators are the mathematical ones. *)
Lemma band_small (a b : Z) :
  0 <= a < 2 ^ 31 -> 0 <= b < 2 ^ 31 -> Js.band a b = Z.land a b.
Proof.
  intros Ha Hb. unfold Js.band.
  rewrite (ToInt32_small a), (ToInt32_small b) by lia.
  pose proof (land_range a b 31). apply ToInt32_small. lia.
Qed.

Lemma bor_small (a b : Z) :
  0 <= a < 2 ^ 31 -> 0 <= b < 2 ^ 31 -> Js.bor a b = Z.lor a b.
Proof.
  intros Ha Hb. unfold Js.bor.
  rewrite (ToInt32_small a), (ToInt32_small b) by lia.
  pose proof (lor_range a b 31). apply ToInt32_small. lia.
Qed.

Lemma shl_small (a k n : Z) :
  0 <= k -> 0 <= n -> n + k <= 31 -> 0 <= a < 2 ^ n ->
  Js.shl a k = Z.shiftl a k.
Proof.
  intros Hk Hn Hnk Ha. unfold Js.shl.
  assert (2 ^ n <= 2 ^ 31) by (apply Z.pow_le_mono_r; lia).
  rewrite (ToInt32_small a) by lia.
  rewrite (Z.mod_small k 32) by lia.
  pose proof (shiftl_range a k n Hk Hn Ha).
  assert (2 ^ (n + k) <= 2 ^ 31) by (apply Z.pow_le_mono_r; lia).
  apply ToInt32_small. lia.
Qed.

Lemma sar_small (a k : Z) :
  0 <= k < 32 -> 0 <= a < 2 ^ 31 -> Js.sar a k = Z.shiftr a k.
Proof.
  intros Hk Ha. unfold Js.sar.
  rewrite (ToInt32_small a) by lia. rewrite (Z.mod_small k 32) by lia.
  reflexivity.
Qed.

(** [(x & m) === m] for a one-bit mask [m = 2^i] tests bit [i]. *)
Lemma land_bit_eqb (x i : Z) :
  0 <= i -> (Z.land x (2 ^ i) =? 2 ^ i) = Z.testbit x i.
Proof.
  intros Hi.
  assert (Hb : Z.land x (2 ^ i) = if Z.testbit x i then 2 ^ i else 0).
  { apply Z.bits_inj'. intros n Hn. rewrite Z.land_spec, Z.pow2_bits_eqb by lia.
    destruct (Z.eqb_spec i n) as [->|Hne].
    - rewrite andb_true_r. destruct (Z.testbit x n).
      + rewrite Z.pow2_bits_true; lia.
      + rewrite Z.bits_0. reflexivity.
    - rewrite andb_false_r. destruct (Z.testbit x i).
      + rewrite Z.pow2_bits_false; lia.
      + rewrite Z.bits_0. reflexivity. }
  rewrite Hb. assert (0 < 2 ^ i) by (apply Z.pow_pos_nonneg; lia).
  destruct (Z.testbit x i); [apply Z.eqb_refl | apply Z.eqb_neq; lia].
Qed.

End BitFacts.

(** ** The collation decoder *)

Section CollationFacts.

Variables codepageBySortId codepageByLcid : gmap Z string.

Local Abbreviation parse := (_parseCollation codepageBySortId codepageByLcid).

Lemma ToInt32'_at_range (buf : Buffer) (i : nat) :
  0 <= Js.ToInt32' (at_ buf i) < 2 ^ 8.
Proof.
  unfold at_. destruct (buf !! i) as [b|]; simpl; [|lia].
  pose proof (byte_Z_range b). rewrite ToInt32_small; lia.
Qed.

Lemma ToInt32'_at_Some (buf : Buffer) (i : nat) (b : byte) :
  buf !! i = Some b -> Js.ToInt32' (at_ buf i) = byte_Z b.
Proof.
  intros H. unfold at_. rewrite H. simpl.
  pose proof (byte_Z_range b). rewrite ToInt32_small; lia.
Qed.

(** The three bit-field expressions of the decoder on byte-sized operands:
    no operator leaves the 32-bit range, so each is the mathematical one. *)
Lemma lcid_bits (x0 x1 x2 : Z) :
  0 <= x0 < 2 ^ 8 -> 0 <= x1 < 2 ^ 8 -> 0 <= x2 < 2 ^ 8 ->
  ((x2 .& 0x0F) .<< 16 .| x1 .<< 8 .| x0)%js =
    Z.lor (Z.lor (Z.shiftl (Z.land x2 0x0F) 16) (Z.shiftl x1 8)) x0
  /\ 0 <= ((x2 .& 0x0F) .<< 16 .| x1 .<< 8 .| x0)%js < 2 ^ 20.
Proof.
  intros H0 H1 H2.
  pose proof (land_range x2 0x0F 4 ltac:(lia) ltac:(lia) ltac:(lia)) as Hn.
  rewrite (band_small x2 0x0F) by lia.
  rewrite (shl_small _ 16 4) by lia.
  rewrite (shl_small x1 8 8) by lia.
  pose proof (shiftl_range _ 16 4 ltac:(lia) ltac:(lia) Hn) as Hs2.
  pose proof (shiftl_range _ 8 8 ltac:(lia) ltac:(lia) H1) as Hs1.
  change (2 ^ (4 + 16)) with (2 ^ 20) in Hs2.
  change (2 ^ (8 + 8)) with (2 ^ 16) in Hs1.
  assert (Hs1' : 0 <= Z.shiftl x1 8 < 2 ^ 20) by lia.
  pose proof (lor_range _ _ 20 ltac:(lia) Hs2 Hs1') as Ho.
  rewrite (bor_small (Z.shiftl (Z.land x2 15) 16) (Z.shiftl x1 8)) by lia.
  assert (H0' : 0 <= x0 < 2 ^ 20) by lia.
  pose proof (lor_range _ _ 20 ltac:(lia) Ho H0') as Ho'.
  rewrite bor_small by lia.
  split; [reflexivity | exact Ho'].
Qed.

Lemma flags_bits (x2 x3 : Z) :
  0 <= x2 < 2 ^ 8 -> 0 <= x3 < 2 ^ 8 ->
  (x2 .& 0xF0 .| x3 .& 0x0F)%js = Z.lor (Z.land x2 0xF0) (Z.land x3 0x0F)
  /\ 0 <= (x2 .& 0xF0 .| x3 .& 0x0F)%js < 2 ^ 8.
Proof.
  intros H2 H3.
  pose proof (land_range x2 0xF0 8 ltac:(lia) ltac:(lia) ltac:(lia)) as Hh.
  pose proof (land_range x3 0x0F 8 ltac:(lia) ltac:(lia) ltac:(lia)) as Hl.
  rewrite !band_small by lia.
  pose proof (lor_range _ _ 8 ltac:(lia) Hh Hl) as Ho.
  rewrite bor_small by lia.
  split; [reflexivity | exact Ho].
Qed.

Lemma version_bits (x3 : Z) :
  0 <= x3 < 2 ^ 8 ->
  ((x3 .& 0xF0) .>> 4 .& 0x0F)%js = Z.shiftr (Z.land x3 0xF0) 4.
Proof.
  intros H3.
  pose proof (land_range x3 0xF0 8 ltac:(lia) ltac:(lia) ltac:(lia)) as Hh.
  rewrite (band_small x3) by lia.
  rewrite sar_small by lia.
  assert (Hr : 0 <= Z.shiftr (Z.land x3 0xF0) 4 < 2 ^ 4).
  { rewrite Z.shiftr_div_pow2 by lia. split.
    - apply Z.div_pos; lia.
    - apply Z.div_lt_upper_bound; lia. }
  rewrite band_small by lia.
  change 0x0F with (Z.ones 4). rewrite Z.land_ones by lia.
  apply Z.mod_small. exact Hr.
Qed.

(** C1. For every 5-byte buffer [b], [_parseCollation b] has
    [lcid = ((b2 & 0x0F) << 16) | (b1 << 8) | b0],
    [flags = (b2 & 0xF0) | (b3 & 0x0F)], [version = (b3 & 0xF0) >> 4] and
    [sortId = b4], the operators being the mathematical ones on the byte
    values. *)
Theorem parseCollation_fields (b0 b1 b2 b3 b4 : byte) :
  let c := parse [b0; b1; b2; b3; b4] in
  lcid c = Z.lor (Z.lor (Z.shiftl (Z.land (byte_Z b2) 0x0F) 16)
                        (Z.shiftl (byte_Z b1) 8)) (byte_Z b0)
  /\ flags c = Z.lor (Z.land (byte_Z b2) 0xF0) (Z.land (byte_Z b3) 0x0F)
  /\ version c = Z.shiftr (Z.land (byte_Z b3) 0xF0) 4
  /\ sortId c = Some (byte_Z b4).
Proof.
  intros c. subst c. set (buf := [b0; b1; b2; b3; b4]).
  unfold _parseCollation. cbn [lcid flags version sortId].
  rewrite (ToInt32'_at_Some buf 0 b0), (ToInt32'_at_Some buf 1 b1),
    (ToInt32'_at_Some buf 2 b2), (ToInt32'_at_Some buf 3 b3) by reflexivity.
  pose proof (byte_Z_range b0). pose proof (byte_Z_range b1).
  pose proof (byte_Z_range b2). pose proof (byte_Z_range b3).
  split; [apply lcid_bits; assumption|].
  split; [apply flags_bits; assumption|].
  split; [apply version_bits; assumption|reflexivity].
Qed.

(** C9. In every collation returned by [_parseCollation] (whatever the
    buffer), each of the eight [_flags] booleans is true exactly when its
    bit is set in the returned [flags]: [fIgnoreCase] 0x10, [fIgnoreAccent]
    0x20, [fIgnoreKana] 0x40, [fIgnoreWidth] 0x80, [fBinary] 0x01,
    [fBinary2] 0x02, [fUTF8] 0x04, [fReservedBit] 0x08. *)
Theorem parseCollation_flag_bits (buf : Buffer) :
  let c := parse buf in
  let bit := fun mask => bool_decide (Z.land (flags c) mask = mask) in
  fIgnoreCase (_flags c) = bit 0x10
  /\ fIgnoreAccent (_flags c) = bit 0x20
  /\ fIgnoreKana (_flags c) = bit 0x40
  /\ fIgnoreWidth (_flags c) = bit 0x80
  /\ fBinary (_flags c) = bit 0x01
  /\ fBinary2 (_flags c) = bit 0x02
  /\ fUTF8 (_flags c) = bit 0x04
  /\ fReservedBit (_flags c) = bit 0x08.
Proof.
  intros c bit. subst c bit.
  unfold _parseCollation.
  cbn [flags _flags fIgnoreCase fIgnoreAccent fIgnoreKana fIgnoreWidth
       fBinary fBinary2 fUTF8 fReservedBit].
  destruct (flags_bits _ _ (ToInt32'_at_range buf 2) (ToInt32'_at_range buf 3))
    as [_ Hr].
  set (f := (Js.ToInt32' (at_ buf 2) .& 0xF0 .| Js.ToInt32' (at_ buf 3) .& 0x0F)%js) in *.
  assert (Hm : forall m, 0 <= m < 2 ^ 8 ->
               ((f .& m)%js =? m) = bool_decide (Z.land f m = m)).
  { intros m Hm. rewrite band_small by lia.
    destruct (Z.eqb_spec (Z.land f m) m) as [E|E].
    - symmetry. apply bool_decide_eq_true. exact E.
    - symmetry. apply bool_decide_eq_false. exact E. }
  rewrite !Hm by lia. repeat split; reflexivity.
Qed.

Lemma codepage_eq (buf : Buffer) :
  let c := parse buf in
  codepage c =
    default fallbackCodepage
      (if fUTF8 (_flags c) then Some "utf8"
       else if bool_decide (sortId c = Some 0) then codepageByLcid !! lcid c
            else sortId c ≫= fun s => codepageBySortId !! s).
Proof.
  intros c. subst c. unfold _parseCollation.
  cbn [codepage _flags fUTF8 sortId lcid]. reflexivity.
Qed.

(** C2. For every 5-byte collation buffer the codepage is ["utf8"] when the
    [fUTF8] flag (bit 0x04 of byte 3) is set; otherwise the entry of the
    table by LCID for the decoded [lcid] when [sortId] is 0, and else the
    entry of the table by sortId; ["CP1252"] when the table has no entry. *)
Theorem parseCollation_codepage (b0 b1 b2 b3 b4 : byte) :
  let c := parse [b0; b1; b2; b3; b4] in
  fUTF8 (_flags c) = Z.testbit (byte_Z b3) 2
  /\ codepage c =
       if fUTF8 (_flags c) then "utf8"
       else if bool_decide (byte_Z b4 = 0)
            then default "CP1252" (codepageByLcid !! lcid c)
            else default "CP1252" (codepageBySortId !! byte_Z b4).
Proof.
  intros c. subst c. set (buf := [b0; b1; b2; b3; b4]). split.
  - unfold _parseCollation. cbn [_flags fUTF8].
    rewrite (ToInt32'_at_Some buf 2 b2), (ToInt32'_at_Some buf 3 b3) by reflexivity.
    pose proof (byte_Z_range b2) as H2. pose proof (byte_Z_range b3) as H3.
    destruct (flags_bits _ _ H2 H3) as [-> Hr].
    rewrite band_small by lia.
    rewrite (land_bit_eqb _ 2) by lia.
    rewrite Z.lor_spec, !Z.land_spec.
    replace (Z.testbit 0xF0 2) with false by reflexivity.
    replace (Z.testbit 0x0F 2) with true by reflexivity.
    rewrite andb_false_r, andb_true_r. reflexivity.
  - pose proof (codepage_eq buf) as Hc. cbv zeta in Hc. rewrite Hc.
    assert (Hs : sortId (parse buf) = Some (byte_Z b4))
      by (unfold _parseCollation; cbn [sortId]; reflexivity).
    rewrite Hs.
    destruct (fUTF8 (_flags (parse buf))); [reflexivity|].
    destruct (decide (byte_Z b4 = 0)) as [E|E].
    + rewrite E. rewrite !bool_decide_eq_true_2 by reflexivity. reflexivity.
    + rewrite (bool_decide_eq_false_2 (byte_Z b4 = 0)) by exact E.
      rewrite bool_decide_eq_false_2 by congruence. reflexivity.
Qed.

End CollationFacts.

(** ** The readers *)

Section ReaderFacts.

Context {R : Type}.
Import Parser.

Lemma readBuffer_app (n : nat) (k : Buffer -> Run R) (bs rest : Buffer) :
  length bs = n -> readBuffer n k (bs ++ rest) = k bs rest.
Proof.
  intros Hn. unfold readBuffer. rewrite decide_True.
  - subst n. rewrite take_app_length, drop_app_length. reflexivity.
  - rewrite length_app. lia.
Qed.

Lemma readBuffer_Done (n : nat) (k : Buffer -> Run R) (input : Buffer) (r : R) :
  readBuffer n k input = Done r ->
  exists bs rest, input = bs ++ rest /\ length bs = n /\ k bs rest = Done r.
Proof.
  unfold readBuffer. destruct (decide (n <= length input)%nat) as [Hle|Hgt].
  - intros H. exists (take n input), (drop n input).
    rewrite take_drop, length_take. repeat split; [lia | exact H].
  - discriminate.
Qed.

Lemma fromLE_1 (b : byte) : fromLE [b] = byte_Z b.
Proof. simpl. lia. Qed.

Lemma fromLE_range (bs : Buffer) : 0 <= fromLE bs < 2 ^ (8 * Z.of_nat (length bs)).
Proof.
  induction bs as [|b bs IH]; simpl fromLE.
  - simpl. lia.
  - pose proof (byte_Z_range b).
    replace (8 * Z.of_nat (length (b :: bs))) with (8 + 8 * Z.of_nat (length bs))
      by (simpl length; lia).
    rewrite Z.pow_add_r by lia. nia.
Qed.

End ReaderFacts.

(** ** The column decoder *)

Lemma name_in_true (l : list string) (n : string) : n ∈ l -> name_in l n = true.
Proof. intros H. unfold name_in. apply bool_decide_eq_true_2. exact H. Qed.

Lemma name_in_false (l l' : list string) (n : string) :
  n ∈ l -> forallb (fun x => negb (name_in l' x)) l = true -> name_in l' n = false.
Proof.
  intros Hn Hall. rewrite forallb_forall in Hall.
  apply list_elem_of_In in Hn. apply Hall in Hn.
  apply negb_true_iff in Hn. exact Hn.
Qed.

Lemma name_in_subset (l l' : list string) (n : string) :
  forallb (name_in l') l = true -> name_in l' n = false -> name_in l n = false.
Proof.
  intros Hall Hn. rewrite forallb_forall in Hall.
  unfold name_in at 1. apply bool_decide_eq_false_2. intros Hin.
  apply list_elem_of_In in Hin. apply Hall in Hin. congruence.
Qed.

Lemma sprintf_02X_byte (b : byte) :
  sprintf_02X (byte_Z b) =
    String (hexDigit (byte_Z b / 16)) (String (hexDigit (byte_Z b mod 16)) "").
Proof. destruct b; vm_compute; reflexivity. Qed.

(** *** Reads never throw, and wait only for bytes *)

Section Delivery.

Import Parser.

Lemma delivers_deliver (N : Z) (m : Metadata.t) : delivers_within N (deliver m).
Proof. intros input. left. exists m, input. reflexivity. Qed.

Lemma delivers_ext (N : Z) (r r' : Run (Metadata.t * Buffer)) :
  (forall input, r input = r' input) -> delivers_within N r' -> delivers_within N r.
Proof. intros Heq H input. rewrite Heq. apply H. Qed.

Lemma delivers_readBuffer (n : nat) (b N : Z)
    (k : Buffer -> Run (Metadata.t * Buffer)) :
  Z.of_nat n <= b -> b <= N ->
  (forall bs, length bs = n -> delivers_within (N - b) (k bs)) ->
  delivers_within N (readBuffer n k).
Proof.
  intros Hn Hb Hk input. unfold readBuffer.
  destruct (decide (n <= length input)%nat) as [Hle|Hgt].
  - destruct (Hk (take n input) ltac:(rewrite length_take; lia) (drop n input))
      as [Hdone|[Hsus Hlen]].
    + left. exact Hdone.
    + right. split; [exact Hsus|]. rewrite length_drop in Hlen. lia.
  - right. split; [reflexivity|lia].
Qed.

Lemma delivers_readUInt8 (N : Z) (k : Z -> Run (Metadata.t * Buffer)) :
  1 <= N -> (forall v, delivers_within (N - 1) (k v)) ->
  delivers_within N (readUInt8 k).
Proof.
  intros HN Hk. unfold readUInt8.
  apply (delivers_readBuffer 1 1); [lia|lia|]. intros bs _. apply Hk.
Qed.

Lemma delivers_readUInt16LE (N : Z) (k : Z -> Run (Metadata.t * Buffer)) :
  2 <= N -> (forall v, delivers_within (N - 2) (k v)) ->
  delivers_within N (readUInt16LE k).
Proof.
  intros HN Hk. unfold readUInt16LE.
  apply (delivers_readBuffer 2 2); [lia|lia|]. intros bs _. apply Hk.
Qed.

Lemma delivers_readUInt32LE (N : Z) (k : Z -> Run (Metadata.t * Buffer)) :
  4 <= N -> (forall v, delivers_within (N - 4) (k v)) ->
  delivers_within N (readUInt32LE k).
Proof.
  intros HN Hk. unfold readUInt32LE.
  apply (delivers_readBuffer 4 4); [lia|lia|]. intros bs _. apply Hk.
Qed.

(** A [BVARCHAR] takes at most 1 + 2 * 255 bytes. *)
Lemma delivers_readBVarChar (N : Z) (k : UCS2 -> Run (Metadata.t * Buffer)) :
  511 <= N -> (forall s, delivers_within (N - 511) (k s)) ->
  delivers_within N (readBVarChar k).
Proof.
  intros HN Hk. unfold readBVarChar, readUInt8.
  apply (delivers_readBuffer 1 1); [lia|lia|]. intros bs Hbs.
  pose proof (fromLE_range bs) as Hr. rewrite Hbs in Hr.
  change (2 ^ (8 * Z.of_nat 1)) with 256 in Hr.
  apply (delivers_readBuffer _ 510); [lia|lia|]. intros cs _.
  replace (N - 1 - 510) with (N - 511) by lia. apply Hk.
Qed.

(** A [USVARCHAR] takes at most 2 + 2 * 65535 bytes. *)
Lemma delivers_readUsVarChar (N : Z) (k : UCS2 -> Run (Metadata.t * Buffer)) :
  131072 <= N -> (forall s, delivers_within (N - 131072) (k s)) ->
  delivers_within N (readUsVarChar k).
Proof.
  intros HN Hk. unfold readUsVarChar, readUInt16LE.
  apply (delivers_readBuffer 2 2); [lia|lia|]. intros bs Hbs.
  pose proof (fromLE_range bs) as Hr. rewrite Hbs in Hr.
  change (2 ^ (8 * Z.of_nat 2)) with 65536 in Hr.
  apply (delivers_readBuffer _ 131070); [lia|lia|]. intros cs _.
  replace (N - 2 - 131070) with (N - 131072) by lia. apply Hk.
Qed.

End Delivery.

(** *** Reads take the bytes of their fields, no more and no fewer *)

Section Sized.
Import Parser.
Context {R : Type}.
Variable callback : Metadata.t -> Run R.
Variable type : DataType.t.

Local Abbreviation sized' := (sized callback type).

Lemma sized_callback (m : Metadata.t) :
  Metadata.type m = type -> sized' (fun _ => []) (callback m).
Proof. intros Hm tail. simpl. exists m. split; [exact Hm|reflexivity]. Qed.

Lemma sized_ext (fields : Buffer -> list TailField)
    (r r' : Run R) :
  (forall input, r input = r' input) -> sized' fields r' -> sized' fields r.
Proof. intros Heq H tail. rewrite Heq. apply H. Qed.

Lemma sized_readBuffer (n : nat) (fields : list TailField)
    (k : Buffer -> Run R) :
  (forall bs, sized' (fun _ => fields) (k bs)) ->
  sized' (fun _ => Bytes n :: fields) (readBuffer n k).
Proof.
  intros Hk tail. unfold readBuffer. cbn [tailSize].
  destruct (decide (n <= length tail)%nat) as [Hle|Hgt]; [|reflexivity].
  specialize (Hk (take n tail) (drop n tail)). cbv beta in Hk.
  destruct (tailSize fields (drop n tail)) as [k'|]; cbn [fmap option_fmap option_map].
  - destruct Hk as (m & Hm & Hk). exists m. split; [exact Hm|].
    rewrite Hk, drop_drop. reflexivity.
  - exact Hk.
Qed.

Lemma sized_readBVarChar (fields : list TailField)
    (k : UCS2 -> Run R) :
  (forall s, sized' (fun _ => fields) (k s)) ->
  sized' (fun _ => BVARCHAR :: fields) (readBVarChar k).
Proof.
  intros Hk tail. unfold readBVarChar, readUInt8. cbn [tailSize].
  destruct tail as [|c tail']; [reflexivity|].
  rewrite (readBuffer_app 1 _ [c] tail' eq_refl), fromLE_1.
  pose proof (sized_readBuffer (2 * Z.to_nat (byte_Z c)) fields
                (fun bs => k (ucs2 bs)) (fun bs => Hk (ucs2 bs)) tail') as H.
  cbn [tailSize] in H. cbv zeta.
  destruct (decide (2 * Z.to_nat (byte_Z c) <= length tail')%nat); [|exact H].
  destruct (tailSize fields (drop (2 * Z.to_nat (byte_Z c)) tail')) as [k'|];
    cbn [fmap option_fmap option_map] in *; [|exact H].
  destruct H as (m & Hm & H). exists m. split; [exact Hm|].
  rewrite H. reflexivity.
Qed.

Lemma sized_readUsVarChar (fields : list TailField)
    (k : UCS2 -> Run R) :
  (forall s, sized' (fun _ => fields) (k s)) ->
  sized' (fun _ => USVARCHAR :: fields) (readUsVarChar k).
Proof.
  intros Hk tail. unfold readUsVarChar, readUInt16LE. cbn [tailSize].
  destruct tail as [|c0 [|c1 tail']]; [reflexivity|reflexivity|].
  rewrite (readBuffer_app 2 _ [c0; c1] tail' eq_refl).
  replace (fromLE [c0; c1]) with (byte_Z c0 + 2 ^ 8 * byte_Z c1)
    by (cbn [fromLE]; lia).
  pose proof (sized_readBuffer (2 * Z.to_nat (byte_Z c0 + 2 ^ 8 * byte_Z c1)) fields
                (fun bs => k (ucs2 bs)) (fun bs => Hk (ucs2 bs)) tail') as H.
  cbn [tailSize] in H. cbv zeta.
  destruct (decide (2 * Z.to_nat (byte_Z c0 + 2 ^ 8 * byte_Z c1) <= length tail')%nat);
    [|exact H].
  destruct (tailSize fields (drop (2 * Z.to_nat (byte_Z c0 + 2 ^ 8 * byte_Z c1)) tail'))
    as [k'|]; cbn [fmap option_fmap option_map] in *; [|exact H].
  destruct H as (m & Hm & H). exists m. split; [exact Hm|].
  rewrite H. reflexivity.
Qed.

Lemma sized_present (fields : list TailField)
    (kyes kno : Run R) :
  sized' (fun _ => fields) kyes ->
  sized' (fun _ => []) kno ->
  sized'
    (fun tail =>
       match tail with
       | present :: _ =>
           if byte_Z present =? 1 then Bytes 1 :: fields else [Bytes 1]
       | [] => [Bytes 1]
       end)
    (readUInt8 (fun present => if present =? 1 then kyes else kno)).
Proof.
  intros Hyes Hno tail. unfold readUInt8.
  destruct tail as [|p tail']; [reflexivity|].
  rewrite (readBuffer_app 1 _ [p] tail' eq_refl), fromLE_1.
  destruct (byte_Z p =? 1); cbn [tailSize];
    (destruct (decide (1 <= length (p :: tail'))%nat) as [_|Hn];
       [|simpl in Hn; lia]);
    change (drop 1 (p :: tail')) with tail'.
  - specialize (Hyes tail'). cbv beta in Hyes.
    destruct (tailSize fields tail') as [k'|];
      cbn [fmap option_fmap option_map]; [|exact Hyes].
    exact Hyes.
  - specialize (Hno tail'). cbn [tailSize] in *. exact Hno.
Qed.

End Sized.

Section MetadataFacts.

Variables codepageBySortId codepageByLcid : gmap Z string.
Variable TYPE : gmap Z DataType.t.

Import Parser.

Local Abbreviation parseColumn :=
  (metadataParse codepageBySortId codepageByLcid TYPE).
Local Abbreviation parseCollation :=
  (_parseCollation codepageBySortId codepageByLcid).

(** C4. For a column whose type resolves to [VarChar], [Char], [NVarChar]
    or [NChar], [metadataParse] reads a [u16] [dataLength] and a 5-byte
    collation after the type id, and hands its callback the metadata with
    that length and the decoded collation, [precision] and [scale]
    undefined; for [NumericN] or [DecimalN] it reads three [u8]s,
    [dataLength], [precision] and [scale], and hands over those, [collation]
    undefined. In both cases the parser is left just after these bytes. *)
Theorem metadataParse_string_and_numeric {R : Type}
    (options : InternalConnectionOptions) (callback : Metadata.t -> Run R)
    (ut : Buffer) (f0 f1 t : byte) (type : DataType.t) (rest : Buffer) :
  length ut = userTypeSize options ->
  TYPE !! byte_Z t = Some type ->
  (DataType.name type ∈ ["VarChar"; "Char"; "NVarChar"; "NChar"] ->
   forall d0 d1 c0 c1 c2 c3 c4 : byte,
     parseColumn options callback
       (ut ++ [f0; f1] ++ [t] ++ [d0; d1] ++ [c0; c1; c2; c3; c4] ++ rest) =
     callback
       {| Metadata.userType := fromLE ut;
          Metadata.flags := fromLE [f0; f1];
          Metadata.type := type;
          Metadata.collation := Some (parseCollation [c0; c1; c2; c3; c4]);
          Metadata.precision := None;
          Metadata.scale := None;
          Metadata.dataLength := Some (byte_Z d0 + 2 ^ 8 * byte_Z d1);
          Metadata.schema := None;
          Metadata.udtInfo := None |} rest)
  /\ (DataType.name type ∈ ["NumericN"; "DecimalN"] ->
      forall d p s : byte,
        parseColumn options callback
          (ut ++ [f0; f1] ++ [t] ++ [d] ++ [p] ++ [s] ++ rest) =
        callback
          {| Metadata.userType := fromLE ut;
             Metadata.flags := fromLE [f0; f1];
             Metadata.type := type;
             Metadata.collation := None;
             Metadata.precision := Some (byte_Z p);
             Metadata.scale := Some (byte_Z s);
             Metadata.dataLength := Some (byte_Z d);
             Metadata.schema := None;
             Metadata.udtInfo := None |} rest).
Proof.
  intros Hut Hty. split; intros Hname; intros.
  - unfold metadataParse, userTypeSize in *.
    destruct (lt_string (tdsVersion options) "7_2");
      unfold readUInt32LE, readUInt16LE, readUInt8, readCollation;
      rewrite (readBuffer_app _ _ ut) by exact Hut;
      rewrite (readBuffer_app 2 _ [f0; f1]) by reflexivity;
      rewrite (readBuffer_app 1 _ [t]) by reflexivity;
      rewrite fromLE_1, Hty;
      rewrite (name_in_true _ _ Hname);
      repeat (erewrite (name_in_false _ _ _ Hname) by reflexivity);
      cbv beta iota;
      rewrite (readBuffer_app 2 _ [d0; d1]) by reflexivity;
      rewrite (readBuffer_app 5 _ [c0; c1; c2; c3; c4]) by reflexivity;
      unfold mk; do 2 f_equal; simpl fromLE; f_equal; lia.
  - unfold metadataParse, userTypeSize in *.
    destruct (lt_string (tdsVersion options) "7_2");
      unfold readUInt32LE, readUInt16LE, readUInt8;
      rewrite (readBuffer_app _ _ ut) by exact Hut;
      rewrite (readBuffer_app 2 _ [f0; f1]) by reflexivity;
      rewrite (readBuffer_app 1 _ [t]) by reflexivity;
      rewrite fromLE_1, Hty;
      rewrite (name_in_true _ _ Hname);
      repeat (erewrite (name_in_false _ _ _ Hname) by reflexivity);
      cbv beta iota;
      rewrite (readBuffer_app 1 _ [d]) by reflexivity;
      rewrite (readBuffer_app 1 _ [p]) by reflexivity;
      rewrite (readBuffer_app 1 _ [s]) by reflexivity;
      rewrite !fromLE_1; reflexivity.
Qed.

(** Peeling the reads off a run that delivered. *)
Ltac invert_reads H :=
  repeat first
    [ apply readBuffer_Done in H as (? & ? & -> & ? & H); cbv beta in H
    | match type of H with
      | (if ?c then _ else _) _ = Done _ => destruct c
      end
    | discriminate H ].

(** C6. For every column [metadataParse] delivers, the input starts with
    [userType], a little-endian [u16] when the [tdsVersion] string orders
    before ["7_2"] and a little-endian [u32] otherwise, followed by [flags]
    as a little-endian [u16] and the type id as a [u8], in that order. *)
Theorem metadataParse_header (options : InternalConnectionOptions)
    (input : Buffer) (m : Metadata.t) (rest : Buffer) :
  parseColumn options deliver input = Done (m, rest) ->
  exists (ut : Buffer) (f0 f1 t : byte) (tail : Buffer),
    input = ut ++ [f0; f1] ++ [t] ++ tail
    /\ length ut = (if lt_string (tdsVersion options) "7_2" then 2%nat else 4%nat)
    /\ Metadata.userType m = fromLE ut
    /\ Metadata.flags m = byte_Z f0 + 2 ^ 8 * byte_Z f1
    /\ TYPE !! byte_Z t = Some (Metadata.type m).
Proof.
  intros H. unfold metadataParse in H.
  destruct (lt_string (tdsVersion options) "7_2");
    unfold readUInt32LE, readUInt16LE, readUInt8, readCollation, readSchema,
      readUDTInfo, readBVarChar, readUsVarChar in H;
    unfold readUInt32LE, readUInt16LE, readUInt8 in H;
    apply readBuffer_Done in H as (ut & r1 & -> & Hut & H);
    apply readBuffer_Done in H as (fl & r2 & -> & Hfl & H);
    apply readBuffer_Done in H as (tb & r3 & -> & Htb & H);
    destruct fl as [|f0 [|f1 [|? ?]]]; try discriminate Hfl;
    destruct tb as [|t [|? ?]]; try discriminate Htb;
    rewrite fromLE_1 in H;
    destruct (TYPE !! byte_Z t) as [type|] eqn:Hty; try discriminate H;
    invert_reads H; unfold deliver in H; injection H as <- <-;
    eexists ut, f0, f1, t, _;
    (split; [reflexivity|]); (split; [exact Hut|]);
    (split; [reflexivity|]); (split; [simpl; lia|exact Hty]).
Qed.

(** C5, as the code has it. After the column header, a type id that the
    registry does not resolve makes [metadataParse] throw
    ["Unrecognised data type 0x<id>"], the id in two upper-case hexadecimal
    digits. An id that resolves to a type whose name the switch has a case
    for never throws: handed [deliver], the column is delivered, or the
    parser waits, and then fewer than 132607 bytes of tail are there; and
    with any callback, the callback is handed a record of that type, with
    the bytes after the tail, exactly when the tail of the type (the row of
    the table of section 4.4) is there in full, and the parser waits in
    every other case. An id that resolves to a type of any other name throws
    ["Unrecognised type <name>"]. *)
Theorem metadataParse_type_resolution (options : InternalConnectionOptions)
    (ut : Buffer) (f0 f1 t : byte) :
  length ut = userTypeSize options ->
  match TYPE !! byte_Z t with
  | None =>
      forall (R : Type) (callback : Metadata.t -> Run R) (tail : Buffer),
        parseColumn options callback (ut ++ [f0; f1] ++ [t] ++ tail) =
        Threw (Js.Error_ ("Unrecognised data type 0x" +:+
                 String (hexDigit (byte_Z t / 16))
                   (String (hexDigit (byte_Z t mod 16)) "")))
  | Some type =>
      if name_in switchNames (DataType.name type) then
        delivers_within 132607
          (fun tail => parseColumn options deliver (ut ++ [f0; f1] ++ [t] ++ tail))
        /\ forall (R : Type) (callback : Metadata.t -> Run R) (tail : Buffer),
             match tailSize (tailFields (DataType.name type) tail) tail with
             | Some n =>
                 exists m : Metadata.t,
                   Metadata.type m = type
                   /\ parseColumn options callback (ut ++ [f0; f1] ++ [t] ++ tail) =
                      callback m (drop n tail)
             | None =>
                 parseColumn options callback (ut ++ [f0; f1] ++ [t] ++ tail) =
                 Suspended
             end
      else
        forall (R : Type) (callback : Metadata.t -> Run R) (tail : Buffer),
          parseColumn options callback (ut ++ [f0; f1] ++ [t] ++ tail) =
          Threw (Js.Error_ ("Unrecognised type " +:+ DataType.name type))
  end.
Proof.
  intros Hut.
  assert (Hhead : forall (R : Type) (callback : Metadata.t -> Run R) tail,
    parseColumn options callback (ut ++ [f0; f1] ++ [t] ++ tail) =
    (fun userType flags typeNumber =>
       ltac:(let body := eval cbv beta delta [metadataParse] in
               (parseColumn options callback) in
             lazymatch body with
             | _ (fun u => _ (fun f => _ (fun n => @?k u f n))) =>
                 exact (k userType flags typeNumber)
             end))
      (fromLE ut) (fromLE [f0; f1]) (byte_Z t) tail).
  { intros R callback tail. unfold metadataParse, userTypeSize in *.
    destruct (lt_string (tdsVersion options) "7_2");
      unfold readUInt32LE, readUInt16LE, readUInt8;
      rewrite (readBuffer_app _ _ ut) by exact Hut;
      rewrite (readBuffer_app 2 _ [f0; f1]) by reflexivity;
      rewrite (readBuffer_app 1 _ [t]) by reflexivity;
      rewrite fromLE_1; reflexivity. }
  cbv beta zeta in Hhead.
  destruct (TYPE !! byte_Z t) as [type|] eqn:Hty.
  - destruct (name_in switchNames (DataType.name type)) eqn:Hname.
    + split.
      * pose proof (Hhead _ deliver) as Hd. clear Hhead.
        lazymatch type of Hd with
        | forall tail, _ = ?f tail => apply (delivers_ext _ _ f Hd)
        end.
        clear Hd.
        repeat match goal with
          | |- delivers_within _ (if ?c then _ else _) => destruct c eqn:?
          end;
        unfold readCollation, readSchema, readUDTInfo;
        repeat first
          [ apply delivers_deliver
          | apply delivers_readBVarChar; [lia|intros ?]
          | apply delivers_readUsVarChar; [lia|intros ?]
          | apply delivers_readUInt8; [lia|intros ?]
          | apply delivers_readUInt16LE; [lia|intros ?]
          | apply delivers_readUInt32LE; [lia|intros ?]
          | apply (delivers_readBuffer 5 5); [lia|lia|intros ? _]
          | match goal with
            | |- delivers_within _ (if ?c then _ else _) => destruct c
            end ].
        exfalso. apply bool_decide_eq_true in Hname. unfold switchNames in Hname.
        repeat (apply elem_of_cons in Hname as [Hn|Hname];
          [ rewrite Hn in *;
            match goal with
            | E : name_in _ _ = false |- _ => vm_compute in E; discriminate E
            end |]).
        apply elem_of_nil in Hname. exact Hname.
      * intros R callback. pose proof (Hhead R callback) as Hd. clear Hhead.
        change (sized callback type (tailFields (DataType.name type))
                  (fun tail => parseColumn options callback
                                 (ut ++ [f0; f1] ++ [t] ++ tail))).
        lazymatch type of Hd with
        | forall tail, _ = ?f tail => apply (sized_ext _ _ _ _ f Hd)
        end.
        clear Hd. unfold tailFields. cbv zeta.
        repeat match goal with
          | |- sized _ _ _ (if ?c then _ else _) =>
              destruct c eqn:?; cbv beta iota
          end;
        unfold readCollation, readSchema, readUDTInfo,
          readUInt32LE, readUInt16LE;
        repeat first
          [ apply sized_callback; reflexivity
          | apply sized_readBVarChar; intros ?
          | apply sized_readUsVarChar; intros ?
          | apply sized_present
          | unfold readUInt8; apply sized_readBuffer; intros ? ].
        exfalso. apply bool_decide_eq_true in Hname. unfold switchNames in Hname.
        repeat (apply elem_of_cons in Hname as [Hn|Hname];
          [ rewrite Hn in *;
            match goal with
            | E : name_in _ _ = false |- _ => vm_compute in E; discriminate E
            end |]).
        apply elem_of_nil in Hname. exact Hname.
    + intros R callback tail. rewrite Hhead.
      repeat (erewrite (name_in_subset _ switchNames)
                by (lazymatch goal with
                    | |- forallb _ _ = true => vm_compute; reflexivity
                    | _ => exact Hname
                    end)).
      reflexivity.
  - intros R callback tail. rewrite Hhead, sprintf_02X_byte. reflexivity.
Qed.

End MetadataFacts.

(** *** The decoder on concrete columns *)

Section MetadataExamples.

Import Parser Samples.

Local Abbreviation parseSample :=
  (metadataParse Samples.codepageBySortId Samples.codepageByLcid Samples.TYPE).

(** The column of the unit test "should varchar", under TDS 7.4, and a
    [numeric(38, 2)] column under TDS 7.1. *)
Lemma metadataParse_string_and_numeric_witness :
  parseSample tds7_4 deliver
    ([x02; x00; x00; x00] ++ [x03; x00] ++ [xa7] ++ [x03; x00] ++
     [x09; x04; x50; x78; x9a] ++ [x04]) =
  Done
    ({| Metadata.userType := 2; Metadata.flags := 3; Metadata.type := VarChar;
        Metadata.collation :=
          Some {| lcid := 0x0409; flags := 0x58;
                  _flags := {| fIgnoreCase := true; fIgnoreAccent := false;
                               fIgnoreWidth := false; fIgnoreKana := true;
                               fBinary := false; fBinary2 := false;
                               fUTF8 := false; fReservedBit := true |};
                  version := 7; sortId := Some 0x9A; codepage := "CP1257" |};
        Metadata.precision := None; Metadata.scale := None;
        Metadata.dataLength := Some 3;
        Metadata.schema := None; Metadata.udtInfo := None |}, [x04])
  /\ parseSample tds7_1 deliver
       ([x02; x00] ++ [x03; x00] ++ [x6c] ++ [x11] ++ [x26] ++ [x02] ++ [x04]) =
     Done
       ({| Metadata.userType := 2; Metadata.flags := 3; Metadata.type := NumericN;
           Metadata.collation := None;
           Metadata.precision := Some 38; Metadata.scale := Some 2;
           Metadata.dataLength := Some 17;
           Metadata.schema := None; Metadata.udtInfo := None |}, [x04]).
Proof.
  assert (Hs : DataType.name VarChar ∈ ["VarChar"; "Char"; "NVarChar"; "NChar"])
    by constructor.
  assert (Hn : DataType.name NumericN ∈ ["NumericN"; "DecimalN"]) by constructor.
  split.
  - rewrite (proj1 (metadataParse_string_and_numeric Samples.codepageBySortId
               Samples.codepageByLcid Samples.TYPE tds7_4 deliver
               [x02; x00; x00; x00] x03 x00 xa7 VarChar [x04] eq_refl eq_refl) Hs).
    vm_compute. reflexivity.
  - rewrite (proj2 (metadataParse_string_and_numeric Samples.codepageBySortId
               Samples.codepageByLcid Samples.TYPE tds7_1 deliver
               [x02; x00] x03 x00 x6c NumericN [x04] eq_refl eq_refl) Hn).
    vm_compute. reflexivity.
Defined.

Lemma metadataParse_header_witness :
  exists (ut : Buffer) (f0 f1 t : byte) (tail : Buffer),
    [x02; x00; x03; x00; x6c; x11; x26; x02; x04] = ut ++ [f0; f1] ++ [t] ++ tail
    /\ length ut = (if lt_string (tdsVersion tds7_1) "7_2" then 2%nat else 4%nat)
    /\ Metadata.userType
         {| Metadata.userType := 2; Metadata.flags := 3; Metadata.type := NumericN;
            Metadata.collation := None;
            Metadata.precision := Some 38; Metadata.scale := Some 2;
            Metadata.dataLength := Some 17;
            Metadata.schema := None; Metadata.udtInfo := None |} = fromLE ut
    /\ Metadata.flags
         {| Metadata.userType := 2; Metadata.flags := 3; Metadata.type := NumericN;
            Metadata.collation := None;
            Metadata.precision := Some 38; Metadata.scale := Some 2;
            Metadata.dataLength := Some 17;
            Metadata.schema := None; Metadata.udtInfo := None |} =
       byte_Z f0 + 2 ^ 8 * byte_Z f1
    /\ Samples.TYPE !! byte_Z t =
       Some (Metadata.type
         {| Metadata.userType := 2; Metadata.flags := 3; Metadata.type := NumericN;
            Metadata.collation := None;
            Metadata.precision := Some 38; Metadata.scale := Some 2;
            Metadata.dataLength := Some 17;
            Metadata.schema := None; Metadata.udtInfo := None |}).
Proof.
  apply (metadataParse_header Samples.codepageBySortId Samples.codepageByLcid
           Samples.TYPE tds7_1 [x02; x00; x03; x00; x6c; x11; x26; x02; x04] _ [x04]).
  vm_compute. reflexivity.
Defined.

(** The registry of the samples resolves 0xF3 to the table-valued parameter
    type, for which the switch has no case: the decoder throws although the
    type id is known. *)
Lemma metadataParse_known_type_throws :
  Samples.TYPE !! 0xF3 = Some TVP
  /\ parseSample tds7_4 deliver [x02; x00; x00; x00; x03; x00; xf3; x00; x00] =
     Threw (Js.Error_ "Unrecognised type TVP").
Proof. split; vm_compute; reflexivity. Qed.

Lemma metadataParse_type_resolution_witness :
  (forall (R : Type) (callback : Metadata.t -> Run R) (tail : Buffer),
     parseSample tds7_1 callback ([x02; x00] ++ [x03; x00] ++ [x0b] ++ tail) =
     Threw (Js.Error_ "Unrecognised data type 0x0B"))
  /\ (delivers_within 132607
        (fun tail => parseSample tds7_1 deliver ([x02; x00] ++ [x03; x00] ++ [x6c] ++ tail))
      /\ forall (R : Type) (callback : Metadata.t -> Run R) (tail : Buffer),
           match tailSize (tailFields "NumericN" tail) tail with
           | Some n =>
               exists m : Metadata.t,
                 Metadata.type m = Samples.NumericN
                 /\ parseSample tds7_1 callback
                      ([x02; x00] ++ [x03; x00] ++ [x6c] ++ tail) =
                    callback m (drop n tail)
           | None =>
               parseSample tds7_1 callback
                 ([x02; x00] ++ [x03; x00] ++ [x6c] ++ tail) = Suspended
           end)
  /\ (forall (R : Type) (callback : Metadata.t -> Run R) (tail : Buffer),
        parseSample tds7_1 callback ([x02; x00] ++ [x03; x00] ++ [xf3] ++ tail) =
        Threw (Js.Error_ "Unrecognised type TVP")).
Proof.
  split; [|split].
  - exact (metadataParse_type_resolution Samples.codepageBySortId
             Samples.codepageByLcid Samples.TYPE tds7_1 [x02; x00] x03 x00 x0b
             eq_refl).
  - exact (metadataParse_type_resolution Samples.codepageBySortId
             Samples.codepageByLcid Samples.TYPE tds7_1 [x02; x00] x03 x00 x6c
             eq_refl).
  - exact (metadataParse_type_resolution Samples.codepageBySortId
             Samples.codepageByLcid Samples.TYPE tds7_1 [x02; x00] x03 x00 xf3
             eq_refl).
Defined.

(** A [numeric] column waits while the third byte of its tail is missing,
    and an [int] column, which has no tail, is delivered from the header
    alone. *)
Example tails_of_sample_columns :
  tailSize (tailFields "NumericN" [x11; x26]) [x11; x26] = None
  /\ parseSample tds7_1 deliver ([x02; x00] ++ [x03; x00] ++ [x6c] ++ [x11; x26]) =
     Suspended
  /\ tailSize (tailFields "NumericN" [x11; x26; x02; x04]) [x11; x26; x02; x04] =
     Some 3%nat
  /\ tailSize (tailFields "Int" []) [] = Some 0%nat
  /\ parseSample tds7_1 deliver ([x02; x00] ++ [x03; x00] ++ [x38]) =
     Done
       ({| Metadata.userType := 2; Metadata.flags := 3; Metadata.type := Int;
           Metadata.collation := None;
           Metadata.precision := None; Metadata.scale := None;
           Metadata.dataLength := None;
           Metadata.schema := None; Metadata.udtInfo := None |}, []).
Proof. repeat split; vm_compute; reflexivity. Qed.

End MetadataExamples.

(** ** SmallDateTime *)

Lemma byte_Z_Z_byte (z : Z) : byte_Z (Z_byte z) = z mod 256.
Proof.
  unfold byte_Z, Z_byte.
  pose proof (Z.mod_pos_bound z 256 ltac:(lia)) as Hm.
  pose proof (Byte.to_of_N_option_map (Z.to_N (z mod 256))) as Ho.
  destruct (Byte.of_N (Z.to_N (z mod 256))) as [b|] eqn:Hb; simpl in Ho.
  - destruct (N.leb_spec (Z.to_N (z mod 256)) 255) as [_|Hgt]; [|discriminate Ho].
    injection Ho as Ho. simpl default. rewrite Ho. lia.
  - destruct (N.leb_spec (Z.to_N (z mod 256)) 255) as [Hle|Hgt]; [discriminate Ho|lia].
Qed.

Lemma fromLE_u16 (v : Z) :
  0 <= v <= 65535 -> Parser.fromLE [Z_byte v; Z_byte (v / 2 ^ 8)] = v.
Proof.
  intros Hv. simpl Parser.fromLE. rewrite !byte_Z_Z_byte.
  change (2 ^ 8) with 256.
  rewrite (Z.mod_small (v / 256) 256)
    by (split; [apply Z.div_pos; lia | apply Z.div_lt_upper_bound; lia]).
  pose proof (Z.div_mod v 256 ltac:(lia)). lia.
Qed.

Section SmallDateTimeFacts.

Variables tzOffset localToUTC : Z -> Z.
Variable Date_parse : string -> option Z.

Import SmallDateTime.

Local Abbreviation generateParameterData' :=
  (generateParameterData tzOffset localToUTC).
Local Abbreviation toBuffer' := (toBuffer tzOffset localToUTC).
Local Abbreviation validate' := (validate Date_parse).

(** C10. For a parameter whose value is [null] or [undefined],
    [generateParameterLength] returns the single byte 0x00,
    [generateParameterData] yields no chunk and [toBuffer] returns an empty
    buffer. *)
Theorem null_value_has_no_data (parameter : ParameterData)
    (options : InternalConnectionOptions) :
  value parameter = Null \/ value parameter = Undefined ->
  generateParameterLength parameter options = ["000"%byte]
  /\ generateParameterData' parameter options = Done []
  /\ toBuffer' parameter options = Done [].
Proof.
  intros Hnull.
  assert (Hn : nullish (value parameter) = true) by (destruct Hnull as [->| ->]; reflexivity).
  unfold generateParameterLength, generateParameterData, toBuffer.
  rewrite Hn. repeat split; reflexivity.
Qed.


(** C8, as the code has it. With [useUTC] set, for a valid date whose whole
    days since 1900-01-01 UTC fit a [u16] (1900-01-01 to 2079-06-06), both
    encoders emit the same four bytes: the days, then the UTC hour times 60
    plus the UTC minute, each as a little-endian [u16];
    [generateParameterData] yields them as its only chunk. *)
Theorem utc_encoding (parameter : ParameterData)
    (options : InternalConnectionOptions) (v : Z) :
  value parameter = DateV (Some v) ->
  useUTC options = true ->
  let days := (v - Date.UTC 1900 0 1) / Date.msPerDay in
  let minutes := (v / 3600000 mod 24) * 60 + v / 60000 mod 60 in
  0 <= days <= 65535 ->
  exists b0 b1 b2 b3 : byte,
    toBuffer' parameter options = Done [b0; b1; b2; b3]
    /\ generateParameterData' parameter options = Done [[b0; b1; b2; b3]]
    /\ Parser.fromLE [b0; b1] = days
    /\ Parser.fromLE [b2; b3] = minutes.
Proof.
  intros Hv Hutc days minutes Hdays.
  assert (Hmin : 0 <= minutes <= 65535).
  { subst minutes.
    pose proof (Z.mod_pos_bound (v / 3600000) 24 ltac:(lia)).
    pose proof (Z.mod_pos_bound (v / 60000) 60 ltac:(lia)). lia. }
  exists (Z_byte days), (Z_byte (days / 2 ^ 8)),
         (Z_byte minutes), (Z_byte (minutes / 2 ^ 8)).
  assert (Hw : forall (A : Type) (k : Buffer -> Outcome A),
             (buffer ← writeUInt16LE (alloc 4) (Some days) 0;
              buffer ← writeUInt16LE buffer (Some minutes) 2; k buffer)
             = k [Z_byte days; Z_byte (days / 2 ^ 8);
                  Z_byte minutes; Z_byte (minutes / 2 ^ 8)]).
  { intros A k. unfold writeUInt16LE. simpl default.
    rewrite decide_True by (simpl; lia). simpl.
    rewrite decide_True by (simpl; lia). reflexivity. }
  split; [|split; [|split]].
  - unfold toBuffer. rewrite Hv, Hutc. simpl. apply (Hw _ (fun b => Done b)).
  - unfold generateParameterData. rewrite Hv, Hutc. simpl.
    apply (Hw _ (fun b => Done [b])).
  - apply fromLE_u16. exact Hdays.
  - apply fromLE_u16. exact Hmin.
Qed.

End SmallDateTimeFacts.

Section SmallDateTimeExamples.

Import SmallDateTime Samples.

Example UTC_EPOCH_DATE_time : UTC_EPOCH_DATE = DateV (Some (-2208988800000)).
Proof. reflexivity. Qed.

Lemma null_value_has_no_data_witness :
  generateParameterLength {| value := Undefined |} tds7_4 = ["000"%byte]
  /\ generateParameterData Samples.tzOffset Samples.localToUTC
       {| value := Undefined |} tds7_4 = Done []
  /\ toBuffer Samples.tzOffset Samples.localToUTC
       {| value := Undefined |} tds7_4 = Done [].
Proof.
  apply (null_value_has_no_data Samples.tzOffset Samples.localToUTC
           {| value := Undefined |} tds7_4).
  right. reflexivity.
Defined.

(** 2000-02-29 12:34 UTC is day 36583 (0x8EE7), minute 754 (0x02F2). *)
Lemma utc_encoding_witness :
  exists b0 b1 b2 b3 : byte,
    toBuffer Samples.tzOffset Samples.localToUTC
      {| value := DateV (Some leapDay) |} tds7_4 = Done [b0; b1; b2; b3]
    /\ generateParameterData Samples.tzOffset Samples.localToUTC
         {| value := DateV (Some leapDay) |} tds7_4 = Done [[b0; b1; b2; b3]]
    /\ Parser.fromLE [b0; b1] = 36583
    /\ Parser.fromLE [b2; b3] = 754.
Proof.
  apply (utc_encoding Samples.tzOffset Samples.localToUTC
           {| value := DateV (Some leapDay) |} tds7_4 leapDay eq_refl eq_refl).
  vm_compute. split; discriminate.
Defined.

Example leapDay_bytes :
  toBuffer Samples.tzOffset Samples.localToUTC
    {| value := DateV (Some leapDay) |} tds7_4 = Done [xe7; x8e; xf2; x02].
Proof. vm_compute. reflexivity. Qed.

(** 2079-06-07 is day 65536 since 1900-01-01, one more than a [u16] holds:
    the write of the day field throws and neither encoder emits a byte. *)
Lemma utc_encoding_out_of_range :
  (Date.UTC 2079 5 7 - Date.UTC 1900 0 1) / Date.msPerDay = 65536
  /\ toBuffer Samples.tzOffset Samples.localToUTC
       {| value := DateV (Some (Date.UTC 2079 5 7)) |} tds7_4 =
     Threw (Js.RangeError "ERR_OUT_OF_RANGE")
  /\ generateParameterData Samples.tzOffset Samples.localToUTC
       {| value := DateV (Some (Date.UTC 2079 5 7)) |} tds7_4 =
     Threw (Js.RangeError "ERR_OUT_OF_RANGE").
Proof. repeat split; vm_compute; reflexivity. Qed.


(** The string of scenario S4 is not a date. *)
Example validate_invalid_date :
  validate Samples.Date_parse (Other (inl "invalid date")) =
  Done (VError (Js.TypeError "Invalid date.")).
Proof. reflexivity. Qed.

End SmallDateTimeExamples.

(** ** Bulk load handles *)

Section BulkLoadFacts.

Import BulkLoad.

Lemma execBulkLoad_started (h : t) (rows : RowSource) :
  phase (execBulkLoad h rows) <> configuring.
Proof.
  unfold execBulkLoad. destruct (phase h) eqn:Hp; simpl; congruence.
Qed.

Lemma step_started (h : t) (ev : Event) :
  phase h <> configuring -> phase (step h ev) <> configuring.
Proof.
  intros Hp. destruct ev; simpl; try exact Hp.
  - unfold addColumn. rewrite decide_False by exact Hp. exact Hp.
  - destruct (phase h) eqn:E; simpl; congruence.
  - destruct (phase h) eqn:E; simpl; congruence.
  - destruct (phase h) eqn:E; simpl; congruence.
  - destruct (phase h) eqn:E; simpl; congruence.
Qed.

Lemma run_started (evs : list Event) (h : t) :
  phase h <> configuring -> phase (run h evs) <> configuring.
Proof.
  revert h. induction evs as [|ev evs IH]; intros h Hp; simpl.
  - exact Hp.
  - apply IH. apply step_started. exact Hp.
Qed.

(** C3. Once [execBulkLoad] was invoked on a handle, with a synchronous or
    an asynchronous row source, [addColumn] fails with exactly the message
    "Columns cannot be added to bulk insert after execution has started.",
    whatever happened to the handle before and whatever has happened since
    (rows pulled, cancellation, timeout, completion, failure, further
    attempts to add columns). *)
Theorem addColumn_after_execBulkLoad (h : t) (rows : RowSource)
    (evs : list Event) (name : string) (type : DataType.t)
    (options : ColumnOptions) :
  addColumn (run (execBulkLoad h rows) evs) name type options =
  Threw (Js.Error_
    "Columns cannot be added to bulk insert after execution has started.").
Proof.
  unfold addColumn. rewrite decide_False; [reflexivity|].
  apply run_started, execBulkLoad_started.
Qed.

(** Before the execution a column can be added. *)
Example addColumn_while_configuring :
  (h ← addColumn (newBulkLoad "#tmpTestTable2") "x" Samples.Int
         {| nullable := false; length := None; precision := None;
            scale := None; objName := None |};
   Done (columns h)) =
  Done [{| name := "x"; type := Samples.Int;
           options := {| nullable := false; length := None; precision := None;
                         scale := None; objName := None |} |}].
Proof. reflexivity. Qed.

End BulkLoadFacts.

(** ** The collations of the unit tests *)

Section CollationExamples.

Import Samples.

Local Abbreviation parse :=
  (_parseCollation Samples.codepageBySortId Samples.codepageByLcid).

(** Scenario S7, [Latin1_General_100_CS_AI_SC_UTF8]. *)
Example collation_utf8 :
  parse [x09; x04; xe0; x24; x00] =
  {| lcid := 0x0409; flags := 0xE4;
     _flags := flagsOf false true true true false false true false;
     version := 2; sortId := Some 0; codepage := "utf8" |}.
Proof. vm_compute. reflexivity. Qed.

Example collation_bin2_utf8 :
  _flags (parse [x09; x04; x00; x26; x00]) =
    flagsOf false false false false false true true false
  /\ codepage (parse [x09; x04; x00; x26; x00]) = "utf8".
Proof. split; vm_compute; reflexivity. Qed.

(** [SQL_Latin1_General_CP1_CI_AS]: sortId 0x34 has no entry in the sample
    table, so the fallback applies. *)
Example collation_sql_latin1 :
  _flags (parse [x09; x04; xd0; x00; x34]) =
    flagsOf true false true true false false false false
  /\ codepage (parse [x09; x04; xd0; x00; x34]) = "CP1252".
Proof. split; vm_compute; reflexivity. Qed.

Example collation_cs_as_ks_ws :
  _flags (parse [x09; x04; x00; x20; x00]) =
    flagsOf false false false false false false false false
  /\ codepage (parse [x09; x04; x00; x20; x00]) = "CP1252".
Proof. split; vm_compute; reflexivity. Qed.

Example collation_ci_ai_ks_ws :
  _flags (parse [x09; x04; x30; x20; x00]) =
    flagsOf true true false false false false false false.
Proof. vm_compute. reflexivity. Qed.

(** The collation of the test "should varchar": by sortId 0x9A. *)
Example collation_by_sortId :
  codepage (parse [x09; x04; x50; x78; x9a]) = "CP1257"
  /\ version (parse [x09; x04; x50; x78; x9a]) = 7.
Proof. split; vm_compute; reflexivity. Qed.

(** The comparison of versions is the one of strings. *)
Example tdsVersion_order :
  str_lt "7_1" "7_2" = true /\ str_lt "7_2" "7_2" = false
  /\ str_lt "7_4" "7_2" = false /\ str_lt "10_0" "7_2" = true
  /\ lt_string None "7_2" = false.
Proof. repeat split; reflexivity. Qed.

End CollationExamples.

(** * Further properties of the decoders and of SmallDateTime *)

(** ** Collations: what the decoder keeps of the five bytes *)

Lemma lor_high_low (a l k : Z) :
  0 <= k -> 0 <= l < 2 ^ k -> Z.lor (a * 2 ^ k) l = a * 2 ^ k + l.
Proof.
  intros Hk Hl.
  assert (Hd : Z.land (a * 2 ^ k) l = 0).
  { apply Z.bits_inj'. intros n Hn. rewrite Z.land_spec, Z.bits_0.
    destruct (Z.lt_ge_cases n k) as [Hlt|Hge].
    - rewrite Z.mul_pow2_bits_low by exact Hlt. reflexivity.
    - rewrite (proj1 (Z.bounded_iff_bits_nonneg k l Hk (proj1 Hl)) (proj2 Hl) n Hge).
      apply andb_false_r. }
  rewrite <- Z.lxor_lor by exact Hd. symmetry. apply Z.add_nocarry_lxor. exact Hd.
Qed.

Lemma land_high_nibble (b : byte) : Z.land (byte_Z b) 0xF0 = byte_Z b / 16 * 2 ^ 4.
Proof. destruct b; reflexivity. Qed.

Lemma land_low_nibble (x : Z) : Z.land x 0x0F = x mod 16.
Proof. change 0x0F with (Z.ones 4). rewrite Z.land_ones by lia. reflexivity. Qed.

Section CollationMore.

Variables codepageBySortId codepageByLcid : gmap Z string.

Local Abbreviation parse := (_parseCollation codepageBySortId codepageByLcid).

(** The fields of a 5-byte collation as sums of the nibbles they are made
    of. *)
Lemma parseCollation_arith (b0 b1 b2 b3 b4 : byte) :
  let c := parse [b0; b1; b2; b3; b4] in
  lcid c = byte_Z b2 mod 16 * 2 ^ 16 + byte_Z b1 * 2 ^ 8 + byte_Z b0
  /\ flags c = byte_Z b2 / 16 * 2 ^ 4 + byte_Z b3 mod 16
  /\ version c = byte_Z b3 / 16.
Proof.
  intros c. subst c. set (buf := [b0; b1; b2; b3; b4]).
  unfold _parseCollation. cbn [lcid flags version].
  rewrite (ToInt32'_at_Some buf 0 b0), (ToInt32'_at_Some buf 1 b1),
    (ToInt32'_at_Some buf 2 b2), (ToInt32'_at_Some buf 3 b3) by reflexivity.
  pose proof (byte_Z_range b0) as H0. pose proof (byte_Z_range b1) as H1.
  pose proof (byte_Z_range b2) as H2. pose proof (byte_Z_range b3) as H3.
  destruct (lcid_bits _ _ _ H0 H1 H2) as [-> _].
  destruct (flags_bits _ _ H2 H3) as [-> _].
  rewrite (version_bits _ H3).
  rewrite !land_low_nibble, !land_high_nibble, !Z.shiftl_mul_pow2 by lia.
  rewrite Z.shiftr_div_pow2 by lia.
  pose proof (Z.mod_pos_bound (byte_Z b2) 16 ltac:(lia)) as Hm2.
  pose proof (Z.mod_pos_bound (byte_Z b3) 16 ltac:(lia)) as Hm3.
  split; [|split].
  - rewrite (lor_high_low _ (byte_Z b1 * 2 ^ 8) 16) by lia.
    replace (byte_Z b2 mod 16 * 2 ^ 16 + byte_Z b1 * 2 ^ 8)
      with ((byte_Z b2 mod 16 * 2 ^ 8 + byte_Z b1) * 2 ^ 8) by lia.
    rewrite lor_high_low by lia. reflexivity.
  - rewrite lor_high_low by lia. reflexivity.
  - change (2 ^ 4) with 16. rewrite Z.div_mul by lia. reflexivity.
Qed.

(** X1. Decoding a collation loses nothing: the five bytes can be computed
    back from [lcid], [flags], [version] and [sortId]. *)
Theorem parseCollation_lossless (b0 b1 b2 b3 b4 : byte) :
  let c := parse [b0; b1; b2; b3; b4] in
  byte_Z b0 = lcid c mod 2 ^ 8
  /\ byte_Z b1 = lcid c / 2 ^ 8 mod 2 ^ 8
  /\ byte_Z b2 = flags c / 16 * 16 + lcid c / 2 ^ 16
  /\ byte_Z b3 = version c * 16 + flags c mod 16
  /\ sortId c = Some (byte_Z b4).
Proof.
  intros c. destruct (parseCollation_arith b0 b1 b2 b3 b4) as (Hl & Hf & Hv).
  fold c in Hl, Hf, Hv. rewrite Hl, Hf, Hv.
  pose proof (byte_Z_range b0) as H0. pose proof (byte_Z_range b1) as H1.
  pose proof (byte_Z_range b2) as H2. pose proof (byte_Z_range b3) as H3.
  change (2 ^ 16) with 65536. change (2 ^ 8) with 256 in *. change (2 ^ 4) with 16.
  pose proof (Z.div_mod (byte_Z b2) 16 ltac:(lia)) as E2.
  pose proof (Z.div_mod (byte_Z b3) 16 ltac:(lia)) as E3.
  pose proof (Z.mod_pos_bound (byte_Z b2) 16 ltac:(lia)) as M2.
  pose proof (Z.mod_pos_bound (byte_Z b3) 16 ltac:(lia)) as M3.
  set (l2 := byte_Z b2 mod 16) in *. set (h2 := byte_Z b2 / 16) in *.
  set (l3 := byte_Z b3 mod 16) in *. set (h3 := byte_Z b3 / 16) in *.
  assert (Hh2 : 0 <= h2 < 16) by lia. assert (Hh3 : 0 <= h3 < 16) by lia.
  split.
  { replace (l2 * 65536 + byte_Z b1 * 256 + byte_Z b0)
      with (byte_Z b0 + (l2 * 256 + byte_Z b1) * 256) by lia.
    rewrite Z.mod_add by lia. symmetry. apply Z.mod_small. lia. }
  split.
  { replace (l2 * 65536 + byte_Z b1 * 256 + byte_Z b0)
      with (byte_Z b0 + (l2 * 256 + byte_Z b1) * 256) by lia.
    rewrite Z.div_add by lia. rewrite (Z.div_small (byte_Z b0)) by lia.
    replace (0 + (l2 * 256 + byte_Z b1)) with (byte_Z b1 + l2 * 256) by lia.
    rewrite Z.mod_add by lia. symmetry. apply Z.mod_small. lia. }
  split.
  { replace (h2 * 16 + l3) with (l3 + h2 * 16) by lia.
    rewrite Z.div_add by lia. rewrite (Z.div_small l3) by lia.
    replace (l2 * 65536 + byte_Z b1 * 256 + byte_Z b0)
      with (byte_Z b1 * 256 + byte_Z b0 + l2 * 65536) by lia.
    rewrite Z.div_add by lia.
    rewrite (Z.div_small (byte_Z b1 * 256 + byte_Z b0)) by lia. lia. }
  split.
  { replace (h2 * 16 + l3) with (l3 + h2 * 16) by lia.
    rewrite Z.mod_add by lia. rewrite (Z.mod_small l3) by lia. lia. }
  subst c. unfold _parseCollation. cbn [sortId]. reflexivity.
Qed.

(** X2. Whatever the buffer, also a short or an empty one, [lcid] has 20
    bits, [flags] 8 bits, [version] 4 bits, and [sortId], when there is one,
    is a byte. *)
Theorem parseCollation_ranges (buf : Buffer) :
  let c := parse buf in
  0 <= lcid c < 2 ^ 20
  /\ 0 <= flags c < 2 ^ 8
  /\ 0 <= version c < 2 ^ 4
  /\ (forall s, sortId c = Some s -> 0 <= s < 2 ^ 8).
Proof.
  intros c. subst c. unfold _parseCollation. cbn [lcid flags version sortId].
  pose proof (ToInt32'_at_range buf 0) as H0.
  pose proof (ToInt32'_at_range buf 1) as H1.
  pose proof (ToInt32'_at_range buf 2) as H2.
  pose proof (ToInt32'_at_range buf 3) as H3.
  split; [apply lcid_bits; assumption|].
  split; [apply flags_bits; assumption|].
  split.
  - rewrite (version_bits _ H3).
    pose proof (land_range (Js.ToInt32' (at_ buf 3)) 0xF0 8
                  ltac:(lia) ltac:(lia) ltac:(lia)) as Hh.
    rewrite Z.shiftr_div_pow2 by lia. split.
    + apply Z.div_pos; lia.
    + apply Z.div_lt_upper_bound; lia.
  - intros s Hs. unfold at_ in Hs.
    destruct (buf !! 4%nat) as [b|]; [|discriminate Hs].
    injection Hs as <-. apply byte_Z_range.
Qed.

(** X3. A buffer of fewer than five bytes has no [sortId]: no table is
    consulted, and the codepage is ["utf8"] when the UTF-8 flag is set and
    the fallback ["CP1252"] otherwise. *)
Theorem parseCollation_short_buffer (buf : Buffer) :
  (length buf < 5)%nat ->
  let c := parse buf in
  sortId c = None
  /\ codepage c = if fUTF8 (_flags c) then "utf8" else "CP1252".
Proof.
  intros Hlen c.
  assert (Hs : sortId c = None).
  { subst c. unfold _parseCollation. cbn [sortId]. unfold at_.
    assert (Hn : buf !! 4%nat = None) by (apply lookup_ge_None_2; lia).
    rewrite Hn. reflexivity. }
  split; [exact Hs|].
  pose proof (codepage_eq codepageBySortId codepageByLcid buf) as Hc.
  cbv zeta in Hc. fold c in Hc. rewrite Hc, Hs.
  destruct (fUTF8 (_flags c)); reflexivity.
Qed.

End CollationMore.

Lemma parseCollation_short_buffer_witness :
  sortId (_parseCollation Samples.codepageBySortId Samples.codepageByLcid
            [x09; x04; x00; x24]) = None
  /\ codepage (_parseCollation Samples.codepageBySortId Samples.codepageByLcid
                 [x09; x04; x00; x24]) =
     (if fUTF8 (_flags (_parseCollation Samples.codepageBySortId
                          Samples.codepageByLcid [x09; x04; x00; x24]))
      then "utf8" else "CP1252").
Proof.
  apply (parseCollation_short_buffer Samples.codepageBySortId
           Samples.codepageByLcid [x09; x04; x00; x24]).
  simpl. lia.
Defined.

(** ** The column decoder: callbacks, framing, errors *)

Section RunFacts.

Import Parser.

Lemma follows_callback {R : Type} (callback : Metadata.t -> Run R) (m : Metadata.t) :
  follows callback (callback m) (deliver m).
Proof. intros input. reflexivity. Qed.

Lemma follows_throw {R : Type} (callback : Metadata.t -> Run R) (e : Js.Error) :
  follows callback (fun _ => Threw e) (fun _ => Threw e).
Proof. intros input. reflexivity. Qed.

Lemma follows_readBuffer {R : Type} (callback : Metadata.t -> Run R) (n : nat)
    (k : Buffer -> Run R) (k' : Buffer -> Run (Metadata.t * Buffer)) :
  (forall bs, follows callback (k bs) (k' bs)) ->
  follows callback (readBuffer n k) (readBuffer n k').
Proof.
  intros Hk input. unfold readBuffer.
  destruct (decide (n <= length input)%nat); [apply Hk|reflexivity].
Qed.

Lemma framed_deliver (lo hi : Z) (m : Metadata.t) :
  lo <= 0 <= hi -> framed lo hi (deliver m).
Proof.
  intros Hb input m' rest H. unfold deliver in H. injection H as <- <-.
  exists []. split; [reflexivity|]. split; [simpl; lia|]. intros more. reflexivity.
Qed.

Lemma framed_throw (lo hi : Z) (e : Js.Error) : framed lo hi (fun _ => Threw e).
Proof. intros input m rest H. discriminate H. Qed.

Lemma framed_readBuffer (n : nat) (nlo nhi lo hi : Z)
    (k : Buffer -> Run (Metadata.t * Buffer)) :
  nlo <= Z.of_nat n <= nhi ->
  (forall bs, length bs = n -> framed (lo - nlo) (hi - nhi) (k bs)) ->
  framed lo hi (readBuffer n k).
Proof.
  intros Hn Hk input m rest H.
  apply readBuffer_Done in H as (bs & tail & -> & Hbs & H).
  destruct (Hk bs Hbs tail m rest H) as (c & -> & Hc & Hmore).
  exists (bs ++ c). split; [apply app_assoc|]. split.
  - rewrite length_app. lia.
  - intros more. rewrite <- app_assoc. rewrite readBuffer_app by exact Hbs.
    apply Hmore.
Qed.

Lemma framed_readBVarChar (lo hi : Z) (k : UCS2 -> Run (Metadata.t * Buffer)) :
  (forall s, framed (lo - 1) (hi - 511) (k s)) -> framed lo hi (readBVarChar k).
Proof.
  intros Hk. unfold readBVarChar, readUInt8.
  apply (framed_readBuffer 1 1 1); [lia|]. intros bs Hbs.
  pose proof (fromLE_range bs) as Hr. rewrite Hbs in Hr.
  change (2 ^ (8 * Z.of_nat 1)) with 256 in Hr.
  apply (framed_readBuffer _ 0 510); [lia|]. intros cs _.
  replace (lo - 1 - 0) with (lo - 1) by lia.
  replace (hi - 1 - 510) with (hi - 511) by lia. apply Hk.
Qed.

Lemma framed_readUsVarChar (lo hi : Z) (k : UCS2 -> Run (Metadata.t * Buffer)) :
  (forall s, framed (lo - 2) (hi - 131072) (k s)) -> framed lo hi (readUsVarChar k).
Proof.
  intros Hk. unfold readUsVarChar, readUInt16LE.
  apply (framed_readBuffer 2 2 2); [lia|]. intros bs Hbs.
  pose proof (fromLE_range bs) as Hr. rewrite Hbs in Hr.
  change (2 ^ (8 * Z.of_nat 2)) with 65536 in Hr.
  apply (framed_readBuffer _ 0 131070); [lia|]. intros cs _.
  replace (lo - 2 - 0) with (lo - 2) by lia.
  replace (hi - 2 - 131070) with (hi - 131072) by lia. apply Hk.
Qed.

Lemma error_final_deliver (m : Metadata.t) : error_final (deliver m).
Proof. intros input more e H. discriminate H. Qed.

Lemma error_final_throw (e : Js.Error) : error_final (fun _ => Threw e).
Proof. intros input more e' H. exact H. Qed.

Lemma error_final_readBuffer (n : nat) (k : Buffer -> Run (Metadata.t * Buffer)) :
  (forall bs, error_final (k bs)) -> error_final (readBuffer n k).
Proof.
  intros Hk input more e. unfold readBuffer.
  destruct (decide (n <= length input)%nat) as [Hle|Hgt]; [|discriminate].
  intros H. rewrite decide_True by (rewrite length_app; lia).
  rewrite take_app_le, drop_app_le by exact Hle. apply Hk. exact H.
Qed.

End RunFacts.

Section MetadataRuns.

Variables codepageBySortId codepageByLcid : gmap Z string.
Variable TYPE : gmap Z DataType.t.

Import Parser.

Local Abbreviation parseColumn :=
  (metadataParse codepageBySortId codepageByLcid TYPE).

(** Walking through the reads and the switch of [metadataParse], for a goal
    that is a predicate on the run. *)
Ltac open_readers :=
  unfold readCollation, readSchema, readUDTInfo;
  unfold readUInt32LE, readUInt16LE, readUInt8.

(** X4. Whatever the callback, [metadataParse] calls it exactly when, and
    with exactly the column and position with which, it would hand the column
    back to its caller; when the parse stops short or throws, the callback is
    not called. *)
Theorem metadataParse_callback {R : Type} (options : InternalConnectionOptions)
    (callback : Metadata.t -> Run R) (input : Buffer) :
  parseColumn options callback input =
  match parseColumn options deliver input with
  | Done (m, rest) => callback m rest
  | Suspended => Suspended
  | Threw e => Threw e
  end.
Proof.
  revert input. change (follows callback (parseColumn options callback)
                          (parseColumn options deliver)).
  unfold metadataParse. cbv zeta.
  destruct (lt_string (tdsVersion options) "7_2"); open_readers;
    repeat first
      [ apply follows_callback
      | apply follows_throw
      | apply follows_readBuffer; intros ?
      | match goal with
        | |- follows _ (match ?o with Some _ => _ | None => _ end) _ => destruct o
        | |- follows _ (if ?c then _ else _) _ => destruct c
        end
      | progress open_readers ].
Qed.

(** X5. A delivered column occupies a prefix of the input, of at least the
    header (userType, flags, type id) and at most 132607 bytes more, and what
    follows that prefix is not looked at: with any other bytes after it the
    same column is delivered. *)
Theorem metadataParse_framed (options : InternalConnectionOptions)
    (input : Buffer) (m : Metadata.t) (rest : Buffer) :
  parseColumn options deliver input = Done (m, rest) ->
  exists consumed : Buffer,
    input = consumed ++ rest
    /\ Z.of_nat (userTypeSize options) + 3 <= Z.of_nat (length consumed)
       <= Z.of_nat (userTypeSize options) + 3 + 132607
    /\ forall more, parseColumn options deliver (consumed ++ more) = Done (m, more).
Proof.
  revert input m rest.
  change (framed (Z.of_nat (userTypeSize options) + 3)
            (Z.of_nat (userTypeSize options) + 3 + 132607)
            (parseColumn options deliver)).
  unfold metadataParse, userTypeSize. cbv zeta.
  destruct (lt_string (tdsVersion options) "7_2"); open_readers;
    repeat first
      [ apply framed_deliver; lia
      | apply framed_throw
      | apply framed_readBVarChar; intros ?
      | apply framed_readUsVarChar; intros ?
      | match goal with
        | |- framed _ _ (readBuffer ?n _) =>
            apply (framed_readBuffer n (Z.of_nat n) (Z.of_nat n)); [lia|intros ? _]
        | |- framed _ _ (match ?o with Some _ => _ | None => _ end) => destruct o
        | |- framed _ _ (if ?c then _ else _) => destruct c
        end
      | progress open_readers ].
Qed.

(** X6. An error of the decoder is final: when [metadataParse] throws on an
    input it throws the same error on every input that continues it. Only a
    suspended parse changes with the bytes that arrive later. *)
Theorem metadataParse_error_final (options : InternalConnectionOptions)
    (input more : Buffer) (e : Js.Error) :
  parseColumn options deliver input = Threw e ->
  parseColumn options deliver (input ++ more) = Threw e.
Proof.
  revert input more e.
  change (error_final (parseColumn options deliver)).
  unfold metadataParse. cbv zeta.
  destruct (lt_string (tdsVersion options) "7_2"); open_readers;
    unfold readBVarChar, readUsVarChar; open_readers;
    repeat first
      [ apply error_final_deliver
      | apply error_final_throw
      | apply error_final_readBuffer; intros ?
      | match goal with
        | |- error_final (match ?o with Some _ => _ | None => _ end) => destruct o
        | |- error_final (if ?c then _ else _) => destruct c
        end ].
Qed.

End MetadataRuns.

(** ** The column decoder: what a delivered column carries *)

Lemma elem_of_mono (l l' : list string) (n : string) :
  n ∈ l -> forallb (name_in l') l = true -> n ∈ l'.
Proof.
  intros Hn Hall. rewrite forallb_forall in Hall.
  apply list_elem_of_In in Hn. apply Hall in Hn.
  apply bool_decide_eq_true in Hn. exact Hn.
Qed.

Lemma elem_of_apart (l l' : list string) (n : string) :
  n ∈ l -> forallb (fun x => negb (name_in l' x)) l = true -> ~ n ∈ l'.
Proof.
  intros Hn Hall Hin. pose proof (name_in_false l l' n Hn Hall) as Hf.
  apply bool_decide_eq_false in Hf. contradiction.
Qed.

Lemma fromLE_bound (bs : Buffer) (n : nat) :
  length bs = n -> 0 <= Parser.fromLE bs < 2 ^ (8 * Z.of_nat n).
Proof. intros <-. apply fromLE_range. Qed.

Section MetadataDelivered.

Variables codepageBySortId codepageByLcid : gmap Z string.
Variable TYPE : gmap Z DataType.t.

Import Parser.

Local Abbreviation parseColumn :=
  (metadataParse codepageBySortId codepageByLcid TYPE).

(** Peeling the reads off a run that delivered, keeping which case of the
    switch was taken. *)
Ltac invert_run H :=
  unfold metadataParse in H; cbv zeta in H;
  unfold readCollation, readSchema, readUDTInfo, readBVarChar, readUsVarChar in H;
  unfold readUInt32LE, readUInt16LE, readUInt8 in H;
  repeat first
    [ apply readBuffer_Done in H as (? & ? & -> & ? & H); cbv beta in H
    | match type of H with
      | (match ?o with Some _ => _ | None => _ end) _ = Done _ => destruct o eqn:?
      | (if ?c then _ else _) _ = Done _ => destruct c eqn:?
      | (if ?c then _ else _) _ _ = Done _ => destruct c eqn:?; cbv beta in H
      end
    | discriminate H ];
  unfold deliver in H; injection H as <- <-.

Ltac member Hin :=
  first
    [ split;
      [ intros _; apply (elem_of_mono _ _ _ Hin); vm_compute; reflexivity
      | intros _; eexists; reflexivity ]
    | split;
      [ intros [? Hx]; discriminate Hx
      | intros Hn; exfalso; revert Hn;
        apply (elem_of_apart _ _ _ Hin); vm_compute; reflexivity ] ].

(** X7. Which optional fields a delivered column has depends on its type
    alone: a collation exactly for the six character types, a precision
    exactly for [NumericN] and [DecimalN], a scale exactly for those and the
    three time types, UDT information exactly for [UDT], a schema only for
    [Xml], and a data length exactly for the types that carry one. The type
    is always one the switch has a case for. *)
Theorem metadataParse_fields_by_type (options : InternalConnectionOptions)
    (input : Buffer) (m : Metadata.t) (rest : Buffer) :
  parseColumn options deliver input = Done (m, rest) ->
  let name := DataType.name (Metadata.type m) in
  name ∈ switchNames
  /\ (is_Some (Metadata.collation m) <->
      name ∈ ["VarChar"; "Char"; "NVarChar"; "NChar"; "Text"; "NText"])
  /\ (is_Some (Metadata.precision m) <-> name ∈ ["NumericN"; "DecimalN"])
  /\ (is_Some (Metadata.scale m) <->
      name ∈ ["Time"; "DateTime2"; "DateTimeOffset"; "NumericN"; "DecimalN"])
  /\ (is_Some (Metadata.udtInfo m) <-> name ∈ ["UDT"])
  /\ (is_Some (Metadata.schema m) -> name ∈ ["Xml"])
  /\ (is_Some (Metadata.dataLength m) <->
      name ∈ ["IntN"; "FloatN"; "MoneyN"; "BitN"; "UniqueIdentifier"; "DateTimeN";
              "Variant"; "VarChar"; "Char"; "NVarChar"; "NChar"; "Text"; "NText";
              "VarBinary"; "Binary"; "Image"; "NumericN"; "DecimalN"]).
Proof.
  intros H name. subst name.
  invert_run H; unfold mk; cbn [Metadata.type Metadata.collation Metadata.precision
    Metadata.scale Metadata.udtInfo Metadata.schema Metadata.dataLength];
  match goal with
  | E : name_in ?l ?n = true |- _ =>
      pose proof (proj1 (bool_decide_eq_true _) E) as Hin
  end;
  (split; [apply (elem_of_mono _ _ _ Hin); vm_compute; reflexivity|]);
  (split; [member Hin|]); (split; [member Hin|]); (split; [member Hin|]);
  (split; [member Hin|]);
  (split; [first [ intros _; apply (elem_of_mono _ _ _ Hin); vm_compute; reflexivity
                 | intros [? Hx]; discriminate Hx ]|]);
  member Hin.
Qed.

(** X8. The numbers of a delivered column are in the range of their wire
    format: [userType] in 16 or 32 bits according to the TDS version,
    [flags] in 16 bits, a data length in 32 bits, precision and scale in a
    byte. *)
Theorem metadataParse_field_ranges (options : InternalConnectionOptions)
    (input : Buffer) (m : Metadata.t) (rest : Buffer) :
  parseColumn options deliver input = Done (m, rest) ->
  0 <= Metadata.userType m < 2 ^ (8 * Z.of_nat (userTypeSize options))
  /\ 0 <= Metadata.flags m < 2 ^ 16
  /\ (forall v, Metadata.dataLength m = Some v -> 0 <= v < 2 ^ 32)
  /\ (forall v, Metadata.precision m = Some v -> 0 <= v < 2 ^ 8)
  /\ (forall v, Metadata.scale m = Some v -> 0 <= v < 2 ^ 8).
Proof.
  intros H. unfold userTypeSize.
  invert_run H; unfold mk;
    cbn [Metadata.userType Metadata.flags Metadata.dataLength
         Metadata.precision Metadata.scale];
    repeat match goal with
      | Hl : length ?bs = _ |- _ =>
          pose proof (fromLE_bound bs _ Hl); clear Hl
      end;
    change (2 ^ (8 * Z.of_nat 1)) with (2 ^ 8) in *;
    change (2 ^ (8 * Z.of_nat 2)) with (2 ^ 16) in *;
    change (2 ^ (8 * Z.of_nat 4)) with (2 ^ 32) in *;
    (split; [assumption|]); (split; [assumption|]);
    (split; [intros v Hv; first [discriminate Hv | injection Hv as <-; lia]|]);
    (split; [intros v Hv; first [discriminate Hv | injection Hv as <-; lia]|]);
    intros v Hv; first [discriminate Hv | injection Hv as <-; lia].
Qed.

End MetadataDelivered.

(** ** The column decoder: the tail of each type family *)

Section MetadataFamilies.

Variables codepageBySortId codepageByLcid : gmap Z string.
Variable TYPE : gmap Z DataType.t.

Import Parser.

Local Abbreviation parseColumn :=
  (metadataParse codepageBySortId codepageByLcid TYPE).
Local Abbreviation parseCollation :=
  (_parseCollation codepageBySortId codepageByLcid).

(** Running the header and entering the case of the switch that [Hname]
    names. *)
Ltac enter_case Hut Hty Hname ut f0 f1 t :=
  unfold metadataParse, userTypeSize in *;
  destruct (lt_string (tdsVersion _) "7_2");
  unfold readUInt32LE, readUInt16LE, readUInt8, readCollation, readSchema,
    readUDTInfo, readBVarChar, readUsVarChar;
  unfold readUInt32LE, readUInt16LE, readUInt8;
  rewrite (readBuffer_app _ _ ut) by exact Hut;
  rewrite (readBuffer_app 2 _ [f0; f1]) by reflexivity;
  rewrite (readBuffer_app 1 _ [t]) by reflexivity;
  rewrite fromLE_1, Hty;
  rewrite (name_in_true _ _ Hname);
  repeat (erewrite (name_in_false _ _ _ Hname) by reflexivity);
  cbv beta iota zeta.

(** X9. A column of a fixed-length type (Null, TinyInt, SmallInt, Int,
    BigInt, Real, Float, SmallMoney, Money, Bit, SmallDateTime, DateTime,
    Date) ends with its type id: the callback gets the column with every
    optional field undefined and the parser just after the header. *)
Theorem metadataParse_fixed_length {R : Type}
    (options : InternalConnectionOptions) (callback : Metadata.t -> Run R)
    (ut : Buffer) (f0 f1 t : byte) (type : DataType.t) (rest : Buffer) :
  length ut = userTypeSize options ->
  TYPE !! byte_Z t = Some type ->
  DataType.name type ∈ ["Null"; "TinyInt"; "SmallInt"; "Int"; "BigInt"; "Real";
                        "Float"; "SmallMoney"; "Money"; "Bit"; "SmallDateTime";
                        "DateTime"; "Date"] ->
  parseColumn options callback (ut ++ [f0; f1] ++ [t] ++ rest) =
  callback
    {| Metadata.userType := fromLE ut;
       Metadata.flags := fromLE [f0; f1];
       Metadata.type := type;
       Metadata.collation := None; Metadata.precision := None;
       Metadata.scale := None; Metadata.dataLength := None;
       Metadata.schema := None; Metadata.udtInfo := None |} rest.
Proof.
  intros Hut Hty Hname. enter_case Hut Hty Hname ut f0 f1 t; reflexivity.
Qed.

(** X10. The families with one number after the type id: a [u8] data length
    for IntN, FloatN, MoneyN, BitN, UniqueIdentifier and DateTimeN; a
    little-endian [u16] data length for VarBinary and Binary; a little-endian
    [u32] data length for Variant and Image; a [u8] scale, and no data
    length, for Time, DateTime2 and DateTimeOffset. *)
Theorem metadataParse_one_number {R : Type}
    (options : InternalConnectionOptions) (callback : Metadata.t -> Run R)
    (ut : Buffer) (f0 f1 t : byte) (type : DataType.t) (rest : Buffer) :
  length ut = userTypeSize options ->
  TYPE !! byte_Z t = Some type ->
  let column := fun dataLength scale =>
    {| Metadata.userType := fromLE ut;
       Metadata.flags := fromLE [f0; f1];
       Metadata.type := type;
       Metadata.collation := None; Metadata.precision := None;
       Metadata.scale := scale; Metadata.dataLength := dataLength;
       Metadata.schema := None; Metadata.udtInfo := None |} in
  (DataType.name type ∈ ["IntN"; "FloatN"; "MoneyN"; "BitN"; "UniqueIdentifier";
                         "DateTimeN"] ->
   forall d : byte,
     parseColumn options callback (ut ++ [f0; f1] ++ [t] ++ [d] ++ rest) =
     callback (column (Some (byte_Z d)) None) rest)
  /\ (DataType.name type ∈ ["VarBinary"; "Binary"] ->
      forall d0 d1 : byte,
        parseColumn options callback (ut ++ [f0; f1] ++ [t] ++ [d0; d1] ++ rest) =
        callback (column (Some (byte_Z d0 + 2 ^ 8 * byte_Z d1)) None) rest)
  /\ (DataType.name type ∈ ["Variant"; "Image"] ->
      forall d0 d1 d2 d3 : byte,
        parseColumn options callback
          (ut ++ [f0; f1] ++ [t] ++ [d0; d1; d2; d3] ++ rest) =
        callback
          (column (Some (byte_Z d0 + 2 ^ 8 * byte_Z d1 + 2 ^ 16 * byte_Z d2
                         + 2 ^ 24 * byte_Z d3)) None) rest)
  /\ (DataType.name type ∈ ["Time"; "DateTime2"; "DateTimeOffset"] ->
      forall s : byte,
        parseColumn options callback (ut ++ [f0; f1] ++ [t] ++ [s] ++ rest) =
        callback (column None (Some (byte_Z s))) rest).
Proof.
  intros Hut Hty column. subst column. cbv beta.
  split; [|split; [|split]]; intros Hname; intros.
  - enter_case Hut Hty Hname ut f0 f1 t;
      rewrite (readBuffer_app 1 _ [d]) by reflexivity;
      rewrite fromLE_1; reflexivity.
  - enter_case Hut Hty Hname ut f0 f1 t;
      rewrite (readBuffer_app 2 _ [d0; d1]) by reflexivity;
      unfold mk; do 2 f_equal; simpl fromLE; f_equal; lia.
  - assert (Hcase : DataType.name type ∈ ["Variant"] \/ DataType.name type ∈ ["Image"]).
    { apply elem_of_cons in Hname as [Hn|Hname];
        [left; rewrite Hn; constructor | right; exact Hname]. }
    destruct Hcase as [Hc|Hc];
      enter_case Hut Hty Hc ut f0 f1 t;
      rewrite (readBuffer_app 4 _ [d0; d1; d2; d3]) by reflexivity;
      unfold mk; do 2 f_equal; simpl fromLE; f_equal; lia.
  - enter_case Hut Hty Hname ut f0 f1 t;
      rewrite (readBuffer_app 1 _ [s]) by reflexivity;
      rewrite fromLE_1; reflexivity.
Qed.

(** X11. A Text or NText column has a little-endian [u32] data length and
    then the five bytes of its collation. *)
Theorem metadataParse_text {R : Type}
    (options : InternalConnectionOptions) (callback : Metadata.t -> Run R)
    (ut : Buffer) (f0 f1 t : byte) (type : DataType.t) (rest : Buffer)
    (d0 d1 d2 d3 c0 c1 c2 c3 c4 : byte) :
  length ut = userTypeSize options ->
  TYPE !! byte_Z t = Some type ->
  DataType.name type ∈ ["Text"; "NText"] ->
  parseColumn options callback
    (ut ++ [f0; f1] ++ [t] ++ [d0; d1; d2; d3] ++ [c0; c1; c2; c3; c4] ++ rest) =
  callback
    {| Metadata.userType := fromLE ut;
       Metadata.flags := fromLE [f0; f1];
       Metadata.type := type;
       Metadata.collation := Some (parseCollation [c0; c1; c2; c3; c4]);
       Metadata.precision := None; Metadata.scale := None;
       Metadata.dataLength :=
         Some (byte_Z d0 + 2 ^ 8 * byte_Z d1 + 2 ^ 16 * byte_Z d2
               + 2 ^ 24 * byte_Z d3);
       Metadata.schema := None; Metadata.udtInfo := None |} rest.
Proof.
  intros Hut Hty Hname.
  enter_case Hut Hty Hname ut f0 f1 t;
    rewrite (readBuffer_app 4 _ [d0; d1; d2; d3]) by reflexivity;
    rewrite (readBuffer_app 5 _ [c0; c1; c2; c3; c4]) by reflexivity;
    unfold mk; do 2 f_equal; simpl fromLE; f_equal; lia.
Qed.

(** X12. An Xml column has a presence byte. Any value but 1 means no schema,
    and the column ends there. The value 1 is followed by the database name
    and the owning schema, each a one-byte character count and that many
    UCS-2 characters, and by the schema collection, with a two-byte count. *)
Theorem metadataParse_xml {R : Type}
    (options : InternalConnectionOptions) (callback : Metadata.t -> Run R)
    (ut : Buffer) (f0 f1 t : byte) (type : DataType.t) (rest : Buffer) :
  length ut = userTypeSize options ->
  TYPE !! byte_Z t = Some type ->
  DataType.name type ∈ ["Xml"] ->
  let column := fun schema =>
    {| Metadata.userType := fromLE ut;
       Metadata.flags := fromLE [f0; f1];
       Metadata.type := type;
       Metadata.collation := None; Metadata.precision := None;
       Metadata.scale := None; Metadata.dataLength := None;
       Metadata.schema := schema; Metadata.udtInfo := None |} in
  (forall p : byte, byte_Z p <> 1 ->
     parseColumn options callback (ut ++ [f0; f1] ++ [t] ++ [p] ++ rest) =
     callback (column None) rest)
  /\ (forall (a b c0 c1 : byte) (A B C : Buffer),
        length A = (2 * Z.to_nat (byte_Z a))%nat ->
        length B = (2 * Z.to_nat (byte_Z b))%nat ->
        length C = (2 * Z.to_nat (byte_Z c0 + 2 ^ 8 * byte_Z c1))%nat ->
        parseColumn options callback
          (ut ++ [f0; f1] ++ [t] ++ [x01] ++ [a] ++ A ++ [b] ++ B
              ++ [c0; c1] ++ C ++ rest) =
        callback
          (column (Some {| dbname := ucs2 A; owningSchema := ucs2 B;
                           xmlSchemaCollection := ucs2 C |})) rest).
Proof.
  intros Hut Hty Hname column. subst column. cbv beta. split.
  - intros p Hp.
    enter_case Hut Hty Hname ut f0 f1 t;
      rewrite (readBuffer_app 1 _ [p]) by reflexivity;
      rewrite fromLE_1;
      rewrite (proj2 (Z.eqb_neq _ _) Hp); reflexivity.
  - intros a b c0 c1 A B C HA HB HC.
    assert (HC' : length C = (2 * Z.to_nat (fromLE [c0; c1]))%nat)
      by (rewrite HC; simpl fromLE; do 2 f_equal; lia).
    enter_case Hut Hty Hname ut f0 f1 t;
      rewrite (readBuffer_app 1 _ [x01]) by reflexivity;
      rewrite fromLE_1; change (byte_Z x01 =? 1) with true; cbv iota;
      rewrite (readBuffer_app 1 _ [a]) by reflexivity; rewrite fromLE_1;
      rewrite (readBuffer_app _ _ A) by exact HA;
      rewrite (readBuffer_app 1 _ [b]) by reflexivity; rewrite fromLE_1;
      rewrite (readBuffer_app _ _ B) by exact HB;
      rewrite (readBuffer_app 2 _ [c0; c1]) by reflexivity;
      rewrite (readBuffer_app _ _ C) by exact HC';
      reflexivity.
Qed.

(** X13. A UDT column has a little-endian [u16] maximal byte size, three
    names with a one-byte character count (database, owning schema, type) and
    the assembly name with a two-byte count. *)
Theorem metadataParse_udt {R : Type}
    (options : InternalConnectionOptions) (callback : Metadata.t -> Run R)
    (ut : Buffer) (f0 f1 t : byte) (type : DataType.t) (rest : Buffer)
    (m0 m1 a b c d0 d1 : byte) (A B C D : Buffer) :
  length ut = userTypeSize options ->
  TYPE !! byte_Z t = Some type ->
  DataType.name type ∈ ["UDT"] ->
  length A = (2 * Z.to_nat (byte_Z a))%nat ->
  length B = (2 * Z.to_nat (byte_Z b))%nat ->
  length C = (2 * Z.to_nat (byte_Z c))%nat ->
  length D = (2 * Z.to_nat (byte_Z d0 + 2 ^ 8 * byte_Z d1))%nat ->
  parseColumn options callback
    (ut ++ [f0; f1] ++ [t] ++ [m0; m1] ++ [a] ++ A ++ [b] ++ B ++ [c] ++ C
        ++ [d0; d1] ++ D ++ rest) =
  callback
    {| Metadata.userType := fromLE ut;
       Metadata.flags := fromLE [f0; f1];
       Metadata.type := type;
       Metadata.collation := None; Metadata.precision := None;
       Metadata.scale := None; Metadata.dataLength := None;
       Metadata.schema := None;
       Metadata.udtInfo :=
         Some {| UdtInfo.maxByteSize := byte_Z m0 + 2 ^ 8 * byte_Z m1;
                 UdtInfo.dbname := ucs2 A;
                 UdtInfo.owningSchema := ucs2 B;
                 UdtInfo.typeName := ucs2 C;
                 UdtInfo.assemblyName := ucs2 D |} |} rest.
Proof.
  intros Hut Hty Hname HA HB HC HD.
  assert (HD' : length D = (2 * Z.to_nat (fromLE [d0; d1]))%nat)
    by (rewrite HD; simpl fromLE; do 2 f_equal; lia).
  enter_case Hut Hty Hname ut f0 f1 t;
    rewrite (readBuffer_app 2 _ [m0; m1]) by reflexivity;
    rewrite (readBuffer_app 1 _ [a]) by reflexivity; rewrite fromLE_1;
    rewrite (readBuffer_app _ _ A) by exact HA;
    rewrite (readBuffer_app 1 _ [b]) by reflexivity; rewrite fromLE_1;
    rewrite (readBuffer_app _ _ B) by exact HB;
    rewrite (readBuffer_app 1 _ [c]) by reflexivity; rewrite fromLE_1;
    rewrite (readBuffer_app _ _ C) by exact HC;
    rewrite (readBuffer_app 2 _ [d0; d1]) by reflexivity;
    rewrite (readBuffer_app _ _ D) by exact HD';
    unfold mk; do 3 f_equal; simpl fromLE; f_equal; lia.
Qed.

(** X14. On an input that ends before the type id, [metadataParse] waits: it
    neither throws nor calls the callback, whatever the bytes are. *)
Theorem metadataParse_short_header {R : Type}
    (options : InternalConnectionOptions) (callback : Metadata.t -> Run R)
    (input : Buffer) :
  (length input < userTypeSize options + 3)%nat ->
  parseColumn options callback input = Suspended.
Proof.
  intros Hlen. unfold metadataParse, userTypeSize in *.
  destruct (lt_string (tdsVersion options) "7_2");
    unfold readUInt32LE, readUInt16LE, readUInt8, readBuffer;
    repeat (case_decide; [|reflexivity]);
    exfalso; rewrite ?length_drop in *; lia.
Qed.

End MetadataFamilies.

(** ** SmallDateTime: how its functions fit together *)

Lemma writeUInt16LE_length (buf buf' : Buffer) (value : option Z) (offset : nat) :
  writeUInt16LE buf value offset = Done buf' -> length buf' = length buf.
Proof.
  unfold writeUInt16LE.
  destruct (decide _) as [_|_]; [|discriminate].
  intros Hw. injection Hw as <-. unfold Buffer in *.
  rewrite !length_insert. reflexivity.
Qed.

(** The two writes of an encoder into a fresh 4-byte buffer: both succeed
    and leave four bytes, or a number is out of range and the encoder throws,
    whatever it would have done with the buffer. *)
Lemma two_writes (days minutes : option Z) :
  (exists b0 b1 b2 b3 : byte,
     (forall (A : Type) (k : Buffer -> Outcome A),
        (result ← writeUInt16LE (alloc 4) days 0;
         result ← writeUInt16LE result minutes 2; k result)
        = k [b0; b1; b2; b3])
     /\ Parser.fromLE [b0; b1] = default 0 days
     /\ Parser.fromLE [b2; b3] = default 0 minutes)
  \/ ((forall (A : Type) (k : Buffer -> Outcome A),
         (result ← writeUInt16LE (alloc 4) days 0;
          result ← writeUInt16LE result minutes 2; k result)
         = Threw (Js.RangeError "ERR_OUT_OF_RANGE"))
      /\ ~ (0 <= default 0 days <= 65535 /\ 0 <= default 0 minutes <= 65535)).
Proof.
  unfold writeUInt16LE, mbind, Outcome_bind.
  destruct (decide (0 <= default 0 days <= 65535)) as [Hd|Hd].
  - rewrite decide_True by (split; [exact Hd|simpl; lia]). cbv beta iota.
    destruct (decide (0 <= default 0 minutes <= 65535)) as [Hm|Hm].
    + left. rewrite decide_True by (split; [exact Hm|simpl; lia]).
      simpl. do 4 eexists. split; [intros A k; reflexivity|].
      split; apply fromLE_u16; assumption.
    + right. rewrite decide_False by (intros [Hm' _]; exact (Hm Hm')).
      split; [intros A k; reflexivity|]. intros [_ Hm']. exact (Hm Hm').
  - right. rewrite decide_False by (intros [Hd' _]; exact (Hd Hd')).
    split; [intros A k; reflexivity|]. intros [Hd' _]. exact (Hd Hd').
Qed.

Section SmallDateTimeMore.

Variables tzOffset localToUTC : Z -> Z.
Variable Date_parse : string -> option Z.

Import SmallDateTime.

Local Abbreviation generateParameterData' :=
  (generateParameterData tzOffset localToUTC).
Local Abbreviation toBuffer' := (toBuffer tzOffset localToUTC).
Local Abbreviation validate' := (validate Date_parse).

(** The day and minute numbers the encoders compute for a [Date], in either
    mode; NaN is [None]. The minutes are always in range. *)
Lemma encoders_on_date (d : Date.t) (options : InternalConnectionOptions) :
  exists days minutes : option Z,
    toBuffer' {| value := DateV d |} options =
      (result ← writeUInt16LE (alloc 4) days 0;
       result ← writeUInt16LE result minutes 2; Done result)
    /\ generateParameterData' {| value := DateV d |} options =
      (result ← writeUInt16LE (alloc 4) days 0;
       result ← writeUInt16LE result minutes 2; Done [result])
    /\ 0 <= default 0 minutes <= 65535.
Proof.
  unfold toBuffer, generateParameterData. cbn [value nullish negb].
  destruct (useUTC options).
  - eexists _, _. split; [cbn; reflexivity|]. split; [cbn; reflexivity|].
    destruct d as [t|]; cbn; [|lia].
    pose proof (Z.mod_pos_bound (t / 3600000) 24 ltac:(lia)).
    pose proof (Z.mod_pos_bound (t / 60000) 60 ltac:(lia)). lia.
  - eexists _, _. split; [cbn; reflexivity|]. split; [cbn; reflexivity|].
    destruct d as [t|]; cbn; [|lia].
    pose proof (Z.mod_pos_bound ((t - tzOffset t * 60000) / 3600000) 24 ltac:(lia)).
    pose proof (Z.mod_pos_bound ((t - tzOffset t * 60000) / 60000) 60 ltac:(lia)).
    lia.
Qed.

(** X15. On a [Date], valid or not, the encoders emit exactly four bytes
    or throw the [RangeError] of a number that does not fit 16 bits, both of
    them alike; they do nothing else, in either time mode. *)
Theorem encoders_four_bytes_or_range_error (d : Date.t)
    (options : InternalConnectionOptions) :
  (exists b0 b1 b2 b3 : byte,
     toBuffer' {| value := DateV d |} options = Done [b0; b1; b2; b3]
     /\ generateParameterData' {| value := DateV d |} options =
        Done [[b0; b1; b2; b3]])
  \/ (toBuffer' {| value := DateV d |} options =
        Threw (Js.RangeError "ERR_OUT_OF_RANGE")
      /\ generateParameterData' {| value := DateV d |} options =
        Threw (Js.RangeError "ERR_OUT_OF_RANGE")).
Proof.
  destruct (encoders_on_date d options) as (days & minutes & -> & -> & _).
  destruct (two_writes days minutes) as [(b0 & b1 & b2 & b3 & Hk & _)|[Hk _]].
  - left. exists b0, b1, b2, b3. split; apply Hk.
  - right. split; apply Hk.
Qed.

(** X16. For [null], [undefined] and dates, the length prefix agrees with
    the data: whenever [generateParameterData] runs to its end, the bytes it
    yielded are as many as the byte returned by [generateParameterLength]
    says, 0 for [null] and [undefined] and 4 for a date. *)
Theorem length_prefix_matches_data (parameter : ParameterData)
    (options : InternalConnectionOptions) (chunks : list Buffer) :
  (forall s, value parameter <> Other s) ->
  generateParameterData' parameter options = Done chunks ->
  Parser.fromLE (generateParameterLength parameter options) =
  Z.of_nat (length (concat chunks)).
Proof.
  destruct parameter as [v]. cbn [value]. intros Hv.
  destruct v as [| |d|s]; [| | |destruct (Hv s eq_refl)].
  - cbn. intros H. injection H as <-. reflexivity.
  - cbn. intros H. injection H as <-. reflexivity.
  - destruct (encoders_on_date d options) as (days & minutes & _ & -> & _).
    destruct (two_writes days minutes) as [(b0 & b1 & b2 & b3 & Hk & _)|[Hk _]];
      rewrite Hk; intros H; [|discriminate H].
    injection H as <-. reflexivity.
Qed.

(** X17. For [null], [undefined] and dates, [toBuffer] returns the
    concatenation of the chunks [generateParameterData] yields, and fails
    when it fails, with the same error. *)
Theorem toBuffer_is_concat (parameter : ParameterData)
    (options : InternalConnectionOptions) :
  (forall s, value parameter <> Other s) ->
  toBuffer' parameter options =
  (chunks ← generateParameterData' parameter options; Done (concat chunks)).
Proof.
  destruct parameter as [v]. cbn [value]. intros Hv.
  destruct v as [| |d|s]; [reflexivity|reflexivity| |destruct (Hv s eq_refl)].
  destruct (encoders_on_date d options) as (days & minutes & -> & -> & _).
  destruct (two_writes days minutes) as [(b0 & b1 & b2 & b3 & Hk & _)|[Hk _]];
    rewrite !Hk; reflexivity.
Qed.

(** X19. An invalid [Date] is not refused by the encoders: its NaN day and
    minute numbers pass the range check and are stored as zeros, the bytes of
    1900-01-01 00:00. *)
Theorem encoders_on_invalid_date (options : InternalConnectionOptions) :
  toBuffer' {| value := DateV None |} options = Done [x00; x00; x00; x00]
  /\ generateParameterData' {| value := DateV None |} options =
     Done [[x00; x00; x00; x00]].
Proof.
  unfold toBuffer, generateParameterData. cbn [value nullish negb].
  destruct (useUTC options); split; reflexivity.
Qed.

(** X20. What [validate] returns: [null] only for [null] and [undefined]; a
    [Date] only when it is valid, and validating that date again returns it
    unchanged; and no error object but the [TypeError] "Invalid date.". *)
Theorem validate_results (v : Value) (r : Validated) :
  validate' v = Done r ->
  match r with
  | VNull => v = Null \/ v = Undefined
  | VDate d => d <> None /\ validate' (DateV d) = Done (VDate d)
  | VError e => e = Js.TypeError "Invalid date."
  end.
Proof.
  assert (Hc : forall d r', checked d = Done r' ->
            match r' with
            | VNull => False
            | VDate d' => d' <> None /\ validate' (DateV d') = Done (VDate d')
            | VError e => e = Js.TypeError "Invalid date."
            end).
  { intros [t|] r' H; cbn in H; injection H as <-.
    - split; [discriminate|reflexivity].
    - reflexivity. }
  destruct v as [| |d|[s|e]]; cbn.
  - intros H. injection H as <-. left. reflexivity.
  - intros H. injection H as <-. right. reflexivity.
  - intros H. apply Hc in H. destruct r; [destruct H|exact H|exact H].
  - intros H. apply Hc in H. destruct r; [destruct H|exact H|exact H].
  - discriminate.
Qed.

(** The UTC day and minute numbers of an instant add up to its minute. *)
Lemma utc_days_minutes (v : Z) :
  Date.UTC 1900 0 1 + (v - Date.UTC 1900 0 1) / (1000 * 60 * 60 * 24) * Date.msPerDay
  + (v / 3600000 mod 24 * 60 + v / 60000 mod 60) * 60000 = v - v mod 60000.
Proof.
  assert (HE : Date.UTC 1900 0 1 = -2208988800000) by reflexivity.
  rewrite HE. change Date.msPerDay with 86400000.
  change (1000 * 60 * 60 * 24) with 86400000.
  replace (v - -2208988800000) with (v + 25567 * 86400000) by lia.
  rewrite Z.div_add by lia.
  replace (v / 86400000) with (v / 60000 / 60 / 24)
    by (rewrite !Z.div_div by lia; reflexivity).
  replace (v / 3600000) with (v / 60000 / 60)
    by (rewrite !Z.div_div by lia; reflexivity).
  pose proof (Z.div_mod v 60000 ltac:(lia)) as Hv.
  set (q := v / 60000) in *.
  pose proof (Z.div_mod q 60 ltac:(lia)) as Hq.
  pose proof (Z.div_mod (q / 60) 24 ltac:(lia)) as Hh.
  lia.
Qed.

(** X21. With [useUTC] set, the bytes emitted for a date decode to the
    instant itself, cut down to its minute: 1900-01-01 plus the encoded days
    plus the encoded minutes is the value without its seconds and
    milliseconds. *)
Theorem utc_encoding_keeps_the_minute (parameter : ParameterData)
    (options : InternalConnectionOptions) (v : Z) (b0 b1 b2 b3 : byte) :
  value parameter = DateV (Some v) ->
  useUTC options = true ->
  toBuffer' parameter options = Done [b0; b1; b2; b3] ->
  Date.UTC 1900 0 1 + Parser.fromLE [b0; b1] * Date.msPerDay
  + Parser.fromLE [b2; b3] * 60000 = v - v mod 60000.
Proof.
  destruct parameter as [p]. cbn [value]. intros -> Hutc.
  unfold toBuffer. cbn [value nullish negb]. rewrite Hutc.
  cbn -[Z.div Z.modulo Z.mul Z.add Z.sub writeUInt16LE alloc Date.UTC
        Parser.fromLE Date.msPerDay].
  match goal with
  | |- context [writeUInt16LE (alloc 4) ?d 0] =>
      match goal with
      | |- context [writeUInt16LE _ ?m 2] =>
          destruct (two_writes d m) as [(c0 & c1 & c2 & c3 & Hk & Hd & Hm)|[Hk _]]
      end
  end.
  - rewrite (Hk _ (fun r => Done r)). intros H.
    injection H as E0 E1 E2 E3. subst c0 c1 c2 c3.
    rewrite Hd, Hm.
    change (Z.abs (Date.UTC 1900 0 1) <=? 8640000000000000) with true.
    cbn [default from_option mbind option_bind]. apply utc_days_minutes.
  - rewrite (Hk _ (fun r => Done r)). discriminate.
Qed.

(** X22. In a host whose offset from UTC never changes, the local-time
    encoding of an instant is the UTC encoding of its wall-clock time. *)
Theorem local_encoding_fixed_offset (c v : Z) (tds : option string) :
  (forall t, tzOffset t = c) ->
  (forall t, localToUTC t = t + c * 60000) ->
  - 1440 <= c <= 1440 ->
  toBuffer' {| value := DateV (Some v) |} {| tdsVersion := tds; useUTC := false |} =
  toBuffer' {| value := DateV (Some (v - c * 60000)) |}
    {| tdsVersion := tds; useUTC := true |}.
Proof.
  intros Htz Hloc Hc. unfold toBuffer. cbn [value nullish negb useUTC].
  unfold getTimezoneOffset, getTime, getHours, getMinutes, getUTCHours,
    getUTCMinutes, EPOCH_DATE, UTC_EPOCH_DATE, call.
  rewrite Hloc. unfold Date.new, Date.TimeClip.
  cbn [mbind option_bind].
  change (Date.UTC 1900 0 1) with (-2208988800000).
  rewrite (proj2 (Z.leb_le _ _)) by lia.
  rewrite (proj2 (Z.leb_le (Z.abs (-2208988800000)) _)) by lia.
  cbn -[Z.div Z.modulo Z.mul Z.add Z.sub Z.opp writeUInt16LE alloc].
  rewrite !Htz.
  replace (v - (-2208988800000 + c * 60000) + - (c - c) * 60 * 1000)
    with (v - c * 60000 - -2208988800000) by lia.
  reflexivity.
Qed.

End SmallDateTimeMore.

(** ** The further properties on concrete inputs *)

Section MoreExamples.

Import Parser Samples MoreSamples.

Local Abbreviation parseFirst :=
  (metadataParse Samples.codepageBySortId Samples.codepageByLcid Samples.TYPE).
Local Abbreviation parseMore :=
  (metadataParse Samples.codepageBySortId Samples.codepageByLcid MoreSamples.TYPE).

Lemma metadataParse_framed_witness :
  exists consumed : Buffer,
    numericInput = consumed ++ [x04]
    /\ Z.of_nat (userTypeSize tds7_1) + 3 <= Z.of_nat (length consumed)
       <= Z.of_nat (userTypeSize tds7_1) + 3 + 132607
    /\ forall more, parseFirst tds7_1 deliver (consumed ++ more) =
                    Done (numericColumn, more).
Proof.
  apply (metadataParse_framed Samples.codepageBySortId Samples.codepageByLcid
           Samples.TYPE tds7_1 numericInput numericColumn [x04]).
  vm_compute. reflexivity.
Defined.

Lemma metadataParse_error_final_witness :
  parseFirst tds7_1 deliver ([x02; x00; x03; x00; x0b] ++ [x01; x02]) =
  Threw (Js.Error_ "Unrecognised data type 0x0B").
Proof.
  apply (metadataParse_error_final Samples.codepageBySortId Samples.codepageByLcid
           Samples.TYPE tds7_1 [x02; x00; x03; x00; x0b] [x01; x02]).
  vm_compute. reflexivity.
Defined.

Lemma metadataParse_fields_by_type_witness :
  let name := DataType.name (Metadata.type numericColumn) in
  name ∈ switchNames
  /\ (is_Some (Metadata.collation numericColumn) <->
      name ∈ ["VarChar"; "Char"; "NVarChar"; "NChar"; "Text"; "NText"])
  /\ (is_Some (Metadata.precision numericColumn) <-> name ∈ ["NumericN"; "DecimalN"])
  /\ (is_Some (Metadata.scale numericColumn) <->
      name ∈ ["Time"; "DateTime2"; "DateTimeOffset"; "NumericN"; "DecimalN"])
  /\ (is_Some (Metadata.udtInfo numericColumn) <-> name ∈ ["UDT"])
  /\ (is_Some (Metadata.schema numericColumn) -> name ∈ ["Xml"])
  /\ (is_Some (Metadata.dataLength numericColumn) <->
      name ∈ ["IntN"; "FloatN"; "MoneyN"; "BitN"; "UniqueIdentifier"; "DateTimeN";
              "Variant"; "VarChar"; "Char"; "NVarChar"; "NChar"; "Text"; "NText";
              "VarBinary"; "Binary"; "Image"; "NumericN"; "DecimalN"]).
Proof.
  apply (metadataParse_fields_by_type Samples.codepageBySortId
           Samples.codepageByLcid Samples.TYPE tds7_1 numericInput numericColumn [x04]).
  vm_compute. reflexivity.
Defined.

Lemma metadataParse_field_ranges_witness :
  0 <= Metadata.userType numericColumn < 2 ^ (8 * Z.of_nat (userTypeSize tds7_1))
  /\ 0 <= Metadata.flags numericColumn < 2 ^ 16
  /\ (forall v, Metadata.dataLength numericColumn = Some v -> 0 <= v < 2 ^ 32)
  /\ (forall v, Metadata.precision numericColumn = Some v -> 0 <= v < 2 ^ 8)
  /\ (forall v, Metadata.scale numericColumn = Some v -> 0 <= v < 2 ^ 8).
Proof.
  apply (metadataParse_field_ranges Samples.codepageBySortId
           Samples.codepageByLcid Samples.TYPE tds7_1 numericInput numericColumn [x04]).
  vm_compute. reflexivity.
Defined.

(** The column of the unit test "should int": userType 2, flags 3, type Int,
    read with a 32-bit userType. *)
Lemma metadataParse_fixed_length_witness :
  parseMore tds7_4 deliver ([x02; x00; x00; x00] ++ [x03; x00] ++ [x38] ++ [x04; x6e]) =
  deliver
    {| Metadata.userType := fromLE [x02; x00; x00; x00];
       Metadata.flags := fromLE [x03; x00];
       Metadata.type := Samples.Int;
       Metadata.collation := None; Metadata.precision := None;
       Metadata.scale := None; Metadata.dataLength := None;
       Metadata.schema := None; Metadata.udtInfo := None |} [x04; x6e].
Proof.
  apply (metadataParse_fixed_length Samples.codepageBySortId Samples.codepageByLcid
           MoreSamples.TYPE tds7_4 deliver [x02; x00; x00; x00] x03 x00 x38
           Samples.Int [x04; x6e]).
  - reflexivity.
  - vm_compute. reflexivity.
  - repeat constructor.
Defined.

Lemma metadataParse_one_number_witness :
  parseMore tds7_1 deliver ([x02; x00] ++ [x03; x00] ++ [x26] ++ [x04] ++ [x6e]) =
  deliver
    {| Metadata.userType := fromLE [x02; x00];
       Metadata.flags := fromLE [x03; x00];
       Metadata.type := IntN;
       Metadata.collation := None; Metadata.precision := None;
       Metadata.scale := None; Metadata.dataLength := Some (byte_Z x04);
       Metadata.schema := None; Metadata.udtInfo := None |} [x6e].
Proof.
  assert (Hn : DataType.name IntN ∈ ["IntN"; "FloatN"; "MoneyN"; "BitN";
                                     "UniqueIdentifier"; "DateTimeN"])
    by constructor.
  exact (proj1 (metadataParse_one_number Samples.codepageBySortId
                  Samples.codepageByLcid MoreSamples.TYPE tds7_1 deliver
                  [x02; x00] x03 x00 x26 IntN [x6e] eq_refl eq_refl) Hn x04).
Defined.

Lemma metadataParse_text_witness :
  parseMore tds7_1 deliver
    ([x02; x00] ++ [x03; x00] ++ [x23] ++ [xff; xff; xff; x7f]
       ++ [x09; x04; xd0; x00; x34] ++ [x6e]) =
  deliver
    {| Metadata.userType := fromLE [x02; x00];
       Metadata.flags := fromLE [x03; x00];
       Metadata.type := Text;
       Metadata.collation :=
         Some (_parseCollation Samples.codepageBySortId Samples.codepageByLcid
                 [x09; x04; xd0; x00; x34]);
       Metadata.precision := None; Metadata.scale := None;
       Metadata.dataLength :=
         Some (byte_Z xff + 2 ^ 8 * byte_Z xff + 2 ^ 16 * byte_Z xff
               + 2 ^ 24 * byte_Z x7f);
       Metadata.schema := None; Metadata.udtInfo := None |} [x6e].
Proof.
  apply (metadataParse_text Samples.codepageBySortId Samples.codepageByLcid
           MoreSamples.TYPE tds7_1 deliver [x02; x00] x03 x00 x23 Text [x6e]).
  - reflexivity.
  - vm_compute. reflexivity.
  - constructor.
Defined.

(** An Xml column without a schema, and one with the database "d", an empty
    owning schema and the collection "s". *)
Lemma metadataParse_xml_witness :
  parseMore tds7_1 deliver ([x02; x00] ++ [x03; x00] ++ [xf1] ++ [x00] ++ [x6e]) =
  Done
    ({| Metadata.userType := 2; Metadata.flags := 3; Metadata.type := Xml;
        Metadata.collation := None; Metadata.precision := None;
        Metadata.scale := None; Metadata.dataLength := None;
        Metadata.schema := None; Metadata.udtInfo := None |}, [x6e])
  /\ parseMore tds7_1 deliver
       ([x02; x00] ++ [x03; x00] ++ [xf1] ++ [x01] ++ [x01] ++ [x64; x00]
          ++ [x00] ++ [] ++ [x01; x00] ++ [x73; x00] ++ [x6e]) =
     Done
       ({| Metadata.userType := 2; Metadata.flags := 3; Metadata.type := Xml;
           Metadata.collation := None; Metadata.precision := None;
           Metadata.scale := None; Metadata.dataLength := None;
           Metadata.schema :=
             Some {| dbname := [100]; owningSchema := [];
                     xmlSchemaCollection := [115] |};
           Metadata.udtInfo := None |}, [x6e]).
Proof.
  assert (Hn : DataType.name Xml ∈ ["Xml"]) by constructor.
  pose proof (metadataParse_xml Samples.codepageBySortId Samples.codepageByLcid
                MoreSamples.TYPE tds7_1 deliver [x02; x00] x03 x00 xf1 Xml [x6e]
                eq_refl eq_refl Hn) as [Habsent Hpresent].
  split.
  - rewrite (Habsent x00) by (vm_compute; discriminate). vm_compute. reflexivity.
  - rewrite (Hpresent x01 x00 x01 x00 [x64; x00] [] [x73; x00]
               eq_refl eq_refl eq_refl).
    vm_compute. reflexivity.
Defined.

Lemma metadataParse_udt_witness :
  parseMore tds7_1 deliver
    ([x02; x00] ++ [x03; x00] ++ [xf0] ++ [x10; x00] ++ [x01] ++ [x64; x00]
       ++ [x00] ++ [] ++ [x01] ++ [x74; x00] ++ [x01; x00] ++ [x61; x00] ++ [x6e]) =
  Done
    ({| Metadata.userType := 2; Metadata.flags := 3; Metadata.type := UDT;
        Metadata.collation := None; Metadata.precision := None;
        Metadata.scale := None; Metadata.dataLength := None;
        Metadata.schema := None;
        Metadata.udtInfo :=
          Some {| UdtInfo.maxByteSize := 16; UdtInfo.dbname := [100];
                  UdtInfo.owningSchema := []; UdtInfo.typeName := [116];
                  UdtInfo.assemblyName := [97] |} |}, [x6e]).
Proof.
  assert (Hn : DataType.name UDT ∈ ["UDT"]) by constructor.
  rewrite (metadataParse_udt Samples.codepageBySortId Samples.codepageByLcid
             MoreSamples.TYPE tds7_1 deliver [x02; x00] x03 x00 xf0 UDT [x6e]
             x10 x00 x01 x00 x01 x01 x00 [x64; x00] [] [x74; x00] [x61; x00]
             eq_refl eq_refl Hn eq_refl eq_refl eq_refl eq_refl).
  vm_compute. reflexivity.
Defined.

Lemma metadataParse_short_header_witness :
  parseMore tds7_1 deliver [x02; x00; x03; x00] = Suspended.
Proof.
  apply (metadataParse_short_header Samples.codepageBySortId Samples.codepageByLcid
           MoreSamples.TYPE tds7_1 deliver [x02; x00; x03; x00]).
  vm_compute. lia.
Defined.

End MoreExamples.

Section SmallDateTimeMoreExamples.

Import SmallDateTime Samples.

Lemma length_prefix_matches_data_witness :
  Parser.fromLE (generateParameterLength {| value := DateV (Some leapDay) |} tds7_4) =
  Z.of_nat (length (concat [[xe7; x8e; xf2; x02]])).
Proof.
  apply (length_prefix_matches_data Samples.tzOffset Samples.localToUTC
           {| value := DateV (Some leapDay) |} tds7_4 [[xe7; x8e; xf2; x02]]).
  - intros s. simpl. discriminate.
  - vm_compute. reflexivity.
Defined.

Lemma toBuffer_is_concat_witness :
  toBuffer Samples.tzOffset Samples.localToUTC
    {| value := DateV (Some leapDay) |} tds7_4 =
  (chunks ← generateParameterData Samples.tzOffset Samples.localToUTC
              {| value := DateV (Some leapDay) |} tds7_4;
   Done (concat chunks)).
Proof.
  apply (toBuffer_is_concat Samples.tzOffset Samples.localToUTC
           {| value := DateV (Some leapDay) |} tds7_4).
  intros s. simpl. discriminate.
Defined.

Lemma validate_results_witness :
  Some leapDay <> None
  /\ validate Samples.Date_parse (DateV (Some leapDay)) = Done (VDate (Some leapDay)).
Proof.
  apply (validate_results Samples.Date_parse (DateV (Some leapDay))
           (VDate (Some leapDay))).
  reflexivity.
Defined.

Lemma utc_encoding_keeps_the_minute_witness :
  Date.UTC 1900 0 1 + Parser.fromLE [xe7; x8e] * Date.msPerDay
  + Parser.fromLE [xf2; x02] * 60000 = (leapDay + 59999) - (leapDay + 59999) mod 60000.
Proof.
  apply (utc_encoding_keeps_the_minute Samples.tzOffset Samples.localToUTC
           {| value := DateV (Some (leapDay + 59999)) |} tds7_4 (leapDay + 59999)
           xe7 x8e xf2 x02 eq_refl eq_refl).
  vm_compute. reflexivity.
Defined.

(** One hour east of UTC, 23:30 UTC on 2000-02-28 is 00:30 on the 29th. *)
Lemma local_encoding_fixed_offset_witness :
  toBuffer MoreSamples.tzOffset MoreSamples.localToUTC
    {| value := DateV (Some (Date.UTC 2000 1 28 + 1410 * 60000)) |}
    {| tdsVersion := Some "7_4"; useUTC := false |} =
  toBuffer MoreSamples.tzOffset MoreSamples.localToUTC
    {| value := DateV (Some (Date.UTC 2000 1 28 + 1410 * 60000 - -60 * 60000)) |}
    {| tdsVersion := Some "7_4"; useUTC := true |}.
Proof.
  apply (local_encoding_fixed_offset MoreSamples.tzOffset MoreSamples.localToUTC
           (-60) (Date.UTC 2000 1 28 + 1410 * 60000) (Some "7_4")).
  - intros t. reflexivity.
  - intros t. reflexivity.
  - lia.
Defined.

Example local_encoding_fixed_offset_bytes :
  toBuffer MoreSamples.tzOffset MoreSamples.localToUTC
    {| value := DateV (Some (Date.UTC 2000 1 28 + 1410 * 60000)) |}
    {| tdsVersion := Some "7_4"; useUTC := false |} = Done [xe7; x8e; x1e; x00].
Proof. vm_compute. reflexivity. Qed.

End SmallDateTimeMoreExamples.
